(** * liquid-dsp: fixed-point NCO/PLL (nco_crcq16.c) and OFDM preamble
      sequences (ofdmframe.common.c)

    A shallow embedding of the two C files and the properties of their
    behaviour.

    Conventions of the embedding.
    - [q16_t] is the 16-bit signed fixed-point integer of liquidfpm; a value
      is its raw integer, a [Z] in [-32768, 32767].  Arithmetic on it is C
      arithmetic: operands are promoted to [int], the result is converted
      back on assignment, which wraps modulo 2^16 ([wrap16]).
    - [float] and [double] are IEEE 754 binary32 and binary64, round to
      nearest even, every operation evaluated in the type of its operands
      (FLT_EVAL_METHOD = 0); they are [spec_float] values and the operations
      are those of [SpecFloat] at precision 24 and 53.
    - A conversion from a floating value to an integer type truncates toward
      zero.  When the truncated value does not fit the integer type the C
      standard defines no result; the value a platform produces there is
      the parameter [fptoui_undef] or [fptosi_undef], about which nothing is
      assumed.
    - [exit(1)] after a diagnostic on stderr is the outcome [Exit msg]; the
      diagnostic is given without its final newline.
    - An array passed with its length is a list; an array that a function
      only writes has the number of elements its interface states.
    - What liquidfpm and the rest of liquid provide and these two files only
      call (the angular constants, the biquad section, the complex product,
      the fixed-point sine and cosine, the m-sequence generator, the FFT) is
      a parameter of the section that uses it. *)

From Stdlib Require Import Strings.String.
From Stdlib Require Import ZArith List Bool Lia QArith.
From Stdlib Require Import Floats.SpecFloat.
From Stdlib Require DecimalString.
Import ListNotations.

Local Open Scope string_scope.
Local Open Scope Z_scope.

(* ================================================================== *)
(** * C arithmetic *)

(** ** 16-bit signed integers *)

Definition q16_min : Z := -32768.
Definition q16_max : Z := 32767.

Definition in_q16 (z : Z) : Prop := q16_min <= z <= q16_max.

Definition in_q16b (z : Z) : bool := (q16_min <=? z) && (z <=? q16_max).

(** Conversion of an [int] to [int16_t]: reduction modulo 2^16 into
    [-32768, 32767]. *)
Definition wrap16 (z : Z) : Z := (z + 32768) mod 65536 - 32768.

(** ** Results of functions that may terminate the process *)

Inductive result (A : Type) : Type :=
| Ok (a : A)
| Exit (diagnostic : String.string).

Arguments Ok {A} a.
Arguments Exit {A} diagnostic.

Definition bind {A B : Type} (r : result A) (k : A -> result B) : result B :=
  match r with
  | Ok a => k a
  | Exit msg => Exit msg
  end.

Definition is_exit {A : Type} (r : result A) : bool :=
  match r with
  | Ok _ => false
  | Exit _ => true
  end.

(** The characters [printf] writes for [%u]. *)
Definition printf_u (z : Z) : String.string :=
  DecimalString.NilZero.string_of_uint (N.to_uint (Z.to_N (z mod 2 ^ 32))).

(** ** binary32 and binary64 *)

Definition f32_add : spec_float -> spec_float -> spec_float := SFadd 24 128.
Definition f32_sub : spec_float -> spec_float -> spec_float := SFsub 24 128.
Definition f32_mul : spec_float -> spec_float -> spec_float := SFmul 24 128.
Definition f32_div : spec_float -> spec_float -> spec_float := SFdiv 24 128.
Definition f32_sqrt : spec_float -> spec_float := SFsqrt 24 128.
Definition f32_ltb : spec_float -> spec_float -> bool := SFltb.

Definition f64_add : spec_float -> spec_float -> spec_float := SFadd 53 1024.
Definition f64_sub : spec_float -> spec_float -> spec_float := SFsub 53 1024.
Definition f64_mul : spec_float -> spec_float -> spec_float := SFmul 53 1024.
Definition f64_div : spec_float -> spec_float -> spec_float := SFdiv 53 1024.

(** Integer to [float] and to [double] (exact below 2^24 and 2^53). *)
Definition f32_of_Z (z : Z) : spec_float := binary_normalize 24 128 z 0 false.
Definition f64_of_Z (z : Z) : spec_float := binary_normalize 53 1024 z 0 false.

(** [float] to [double]: exact. *)
Definition f64_of_f32 (x : spec_float) : spec_float :=
  match x with
  | S754_finite s m e => binary_round 53 1024 s m e
  | _ => x
  end.

(** The literal [40.743665f]: the binary32 value nearest to the decimal,
    10680707 * 2^-18 (see [f32_40_743665_nearest]). *)
Definition f32_40_743665 : spec_float := S754_finite false 10680707 (-18).

(** The literals [0.5f] and [512.0f], [1.0f], [2.0f]. *)
Definition f32_0_5 : spec_float := S754_finite false 8388608 (-24).
Definition f32_512 : spec_float := f32_of_Z 512.
Definition f32_zero : spec_float := S754_zero false.
Definition f32_1 : spec_float := f32_of_Z 1.
Definition f32_2 : spec_float := f32_of_Z 2.

(** The [double] literals [1.], [2.] and [0.1]. *)
Definition f64_1 : spec_float := f64_of_Z 1.
Definition f64_2 : spec_float := f64_of_Z 2.
Definition f64_0_1 : spec_float := f64_div (f64_of_Z 1) (f64_of_Z 10).

(** Integral part of a finite floating value, toward zero. *)
Definition SFtrunc (x : spec_float) : option Z :=
  match x with
  | S754_zero _ => Some 0
  | S754_finite s m e => Some (cond_Zopp s (Z.shiftl (Zpos m) e))
  | S754_infinity _ => None
  | S754_nan => None
  end.

Section Conversions.

(** What a platform yields for a floating value whose integral part the
    target integer type cannot hold (infinities and NaN included). *)
Variable fptoui_undef : spec_float -> Z.
Variable fptosi_undef : spec_float -> Z.

(** [(unsigned int) x] *)
Definition float_to_uint (x : spec_float) : Z :=
  match SFtrunc x with
  | Some z => if (0 <=? z) && (z <? 2 ^ 32) then z else fptoui_undef x
  | None => fptoui_undef x
  end.

(** Assignment of a floating value to a [q16_t] object. *)
Definition float_to_q16 (x : spec_float) : Z :=
  match SFtrunc x with
  | Some z => if in_q16b z then z else wrap16 (fptosi_undef x)
  | None => wrap16 (fptosi_undef x)
  end.

End Conversions.

(* ================================================================== *)
(** * nco_crcq16.c : definitions *)

(** [liquid_ncotype]: the two oscillator kinds, and any other value of the
    enumeration's integer type (what [nco_crcq16_create] rejects). *)
Inductive liquid_ncotype : Type :=
| LIQUID_NCO
| LIQUID_VCO
| LIQUID_NCOTYPE_OTHER (v : Z).

(** The two functions the pointer [compute_sincos] may hold. *)
Inductive sincos_impl : Type :=
| sincos_nco
| sincos_vco.

(** [cq16_t]: complex fixed-point sample. *)
Record cq16_t : Type := mk_cq16 { real : Z; imag : Z }.

Definition NCO_PLL_GAIN_DEFAULT : Z := 1000.

(** [NCO_PLL_BANDWIDTH_DEFAULT] is the [double] literal 0.1. *)
Definition NCO_PLL_BANDWIDTH_DEFAULT : spec_float := f64_0_1.

Section Nco.

(** liquidfpm's angular constants and unit. *)
Variables q16_pi q16_2pi q16_one : Z.

(** [q16_float_to_fixed(sinf(2.0f*M_PI*(float)(i)/256.0f))], entry [i] of
    the sine table. *)
Variable q16_sintab_entry : Z -> Z.

(** liquidfpm's fixed-point sine and cosine, and complex product. *)
Variables q16_sin q16_cos : Z -> Z.
Variable cq16_mul : cq16_t -> cq16_t -> cq16_t.

(** The second-order section [iirfiltsos_rrrq16] with coefficient arrays
    [b[3]], [a[3]]. *)
Variable iirfiltsos_rrrq16 : Type.
Variable iirfiltsos_rrrq16_create : Z * Z * Z -> Z * Z * Z -> iirfiltsos_rrrq16.
Variable iirfiltsos_rrrq16_set_coefficients :
  iirfiltsos_rrrq16 -> Z * Z * Z -> Z * Z * Z -> iirfiltsos_rrrq16.
Variable iirfiltsos_rrrq16_execute_df1 :
  iirfiltsos_rrrq16 -> Z -> iirfiltsos_rrrq16 * Z.
Variable iirfiltsos_rrrq16_clear : iirfiltsos_rrrq16 -> iirfiltsos_rrrq16.

Variable fptoui_undef : spec_float -> Z.
Variable fptosi_undef : spec_float -> Z.

(** [struct nco_crcq16_s] *)
Record nco_crcq16_s : Type := mk_nco {
  type : liquid_ncotype;
  theta : Z;
  d_theta : Z;
  sintab : list Z;
  index : Z;
  sine : Z;
  cosine : Z;
  compute_sincos : sincos_impl;
  bandwidth : Z;
  zeta : Z;
  a : Z * Z * Z;
  b : Z * Z * Z;
  pll_filter : iirfiltsos_rrrq16
}.

Definition set_theta (q : nco_crcq16_s) (v : Z) : nco_crcq16_s :=
  mk_nco (type q) v (d_theta q) (sintab q) (index q) (sine q) (cosine q)
         (compute_sincos q) (bandwidth q) (zeta q) (a q) (b q) (pll_filter q).

Definition set_d_theta (q : nco_crcq16_s) (v : Z) : nco_crcq16_s :=
  mk_nco (type q) (theta q) v (sintab q) (index q) (sine q) (cosine q)
         (compute_sincos q) (bandwidth q) (zeta q) (a q) (b q) (pll_filter q).

Definition set_index (q : nco_crcq16_s) (v : Z) : nco_crcq16_s :=
  mk_nco (type q) (theta q) (d_theta q) (sintab q) v (sine q) (cosine q)
         (compute_sincos q) (bandwidth q) (zeta q) (a q) (b q) (pll_filter q).

Definition set_sine_cosine (q : nco_crcq16_s) (s c : Z) : nco_crcq16_s :=
  mk_nco (type q) (theta q) (d_theta q) (sintab q) (index q) s c
         (compute_sincos q) (bandwidth q) (zeta q) (a q) (b q) (pll_filter q).

Definition set_compute_sincos (q : nco_crcq16_s) (f : sincos_impl) : nco_crcq16_s :=
  mk_nco (type q) (theta q) (d_theta q) (sintab q) (index q) (sine q) (cosine q)
         f (bandwidth q) (zeta q) (a q) (b q) (pll_filter q).

Definition set_pll_filter (q : nco_crcq16_s) (f : iirfiltsos_rrrq16) : nco_crcq16_s :=
  mk_nco (type q) (theta q) (d_theta q) (sintab q) (index q) (sine q) (cosine q)
         (compute_sincos q) (bandwidth q) (zeta q) (a q) (b q) f.

Definition set_pll (q : nco_crcq16_s) (bw z : Z) (bs as_ : Z * Z * Z)
                   (f : iirfiltsos_rrrq16) : nco_crcq16_s :=
  mk_nco (type q) (theta q) (d_theta q) (sintab q) (index q) (sine q) (cosine q)
         (compute_sincos q) bw z as_ bs f.

(** ** Internal methods *)

(** [nco_crcq16_constrain_phase] *)
Definition nco_crcq16_constrain_phase (q : nco_crcq16_s) : nco_crcq16_s :=
  if q16_pi <? theta q then set_theta q (wrap16 (theta q - q16_2pi))
  else if theta q <? - q16_pi then set_theta q (wrap16 (theta q + q16_2pi))
  else q.

(** [nco_crcq16_constrain_frequency] (called nowhere). *)
Definition nco_crcq16_constrain_frequency (q : nco_crcq16_s) : nco_crcq16_s :=
  if q16_pi <? d_theta q then set_d_theta q (wrap16 (d_theta q - q16_2pi))
  else if d_theta q <? - q16_pi then set_d_theta q (wrap16 (d_theta q + q16_2pi))
  else q.

(** The value converted to [unsigned int] in [nco_crcq16_compute_sincos_nco]:
    [(_q->theta)*40.743665f + 512.0f + 0.5f]. *)
Definition sincos_nco_arg (th : Z) : spec_float :=
  f32_add (f32_add (f32_mul (f32_of_Z th) f32_40_743665) f32_512) f32_0_5.

(** [nco_crcq16_compute_sincos_nco]; the [assert] terminates the process
    when it fails. *)
Definition nco_crcq16_compute_sincos_nco (q : nco_crcq16_s) : result nco_crcq16_s :=
  let q1 := set_index q (Z.land (float_to_uint fptoui_undef (sincos_nco_arg (theta q))) 255) in
  if index q1 <? 256 then
    Ok (set_sine_cosine q1
          (nth (Z.to_nat (index q1)) (sintab q1) 0)
          (nth (Z.to_nat (Z.land (index q1 + 64) 255)) (sintab q1) 0))
  else Exit "Assertion `_q->index < 256' failed.".

(** [nco_crcq16_compute_sincos_vco] *)
Definition nco_crcq16_compute_sincos_vco (q : nco_crcq16_s) : result nco_crcq16_s :=
  Ok (set_sine_cosine q (q16_sin (theta q)) (q16_cos (theta q))).

(** The call [_q->compute_sincos(_q)]. *)
Definition call_compute_sincos (q : nco_crcq16_s) : result nco_crcq16_s :=
  match compute_sincos q with
  | sincos_nco => nco_crcq16_compute_sincos_nco q
  | sincos_vco => nco_crcq16_compute_sincos_vco q
  end.

(** ** Phase-locked loop *)

(** [nco_crcq16_pll_reset] *)
Definition nco_crcq16_pll_reset (q : nco_crcq16_s) : nco_crcq16_s :=
  set_pll_filter q (iirfiltsos_rrrq16_clear (pll_filter q)).

(** The locals of [nco_crcq16_pll_set_bandwidth]. *)
Definition pll_K : spec_float := f32_of_Z NCO_PLL_GAIN_DEFAULT.
Definition pll_zeta : spec_float := f32_div f32_1 (f32_sqrt f32_2).
Definition pll_wn (_b : Z) : spec_float := f32_of_Z _b.
Definition pll_t1 (_b : Z) : spec_float :=
  f32_div pll_K (f32_mul (pll_wn _b) (pll_wn _b)).
Definition pll_t2 (_b : Z) : spec_float :=
  f32_sub (f32_div (f32_mul f32_2 pll_zeta) (pll_wn _b)) (f32_div f32_1 pll_K).

(** The right-hand sides assigned to [b[0..2]] and [a[0..2]], before their
    conversion to [q16_t]. *)
Definition pll_b0 (_b : Z) : spec_float :=
  f64_mul (f64_of_f32 (f32_mul f32_2 pll_K))
          (f64_add f64_1 (f64_of_f32 (f32_div (pll_t2 _b) f32_2))).
Definition pll_b1 : spec_float :=
  f64_mul (f64_of_f32 (f32_mul f32_2 pll_K)) f64_2.
Definition pll_b2 (_b : Z) : spec_float :=
  f64_mul (f64_of_f32 (f32_mul f32_2 pll_K))
          (f64_sub f64_1 (f64_of_f32 (f32_div (pll_t2 _b) f32_2))).
Definition pll_a0 (_b : Z) : spec_float :=
  f64_add f64_1 (f64_of_f32 (f32_div (pll_t1 _b) f32_2)).
Definition pll_a1 (_b : Z) : spec_float :=
  f64_add (SFopp f64_1) (f64_of_f32 (f32_div (pll_t1 _b) f32_2)).

Definition pll_coefficients_b (_b : Z) : Z * Z * Z :=
  (float_to_q16 fptosi_undef (pll_b0 _b),
   float_to_q16 fptosi_undef pll_b1,
   float_to_q16 fptosi_undef (pll_b2 _b)).

Definition pll_coefficients_a (_b : Z) : Z * Z * Z :=
  (float_to_q16 fptosi_undef (pll_a0 _b),
   float_to_q16 fptosi_undef (pll_a1 _b),
   float_to_q16 fptosi_undef f32_zero).

(** [nco_crcq16_pll_set_bandwidth] *)
Definition nco_crcq16_pll_set_bandwidth (q : nco_crcq16_s) (_b : Z)
  : result nco_crcq16_s :=
  if f32_ltb (f32_of_Z _b) f32_zero then
    Exit "error: nco_pll_set_bandwidth(), bandwidth must be positive"
  else
    let bs := pll_coefficients_b _b in
    let as_ := pll_coefficients_a _b in
    Ok (set_pll q _b (float_to_q16 fptosi_undef pll_zeta) bs as_
          (iirfiltsos_rrrq16_set_coefficients (pll_filter q) bs as_)).

(** ** Frequency and phase *)

(** [nco_crcq16_set_frequency] *)
Definition nco_crcq16_set_frequency (q : nco_crcq16_s) (_f : Z) : nco_crcq16_s :=
  set_d_theta q _f.

(** [nco_crcq16_adjust_frequency] *)
Definition nco_crcq16_adjust_frequency (q : nco_crcq16_s) (_df : Z) : nco_crcq16_s :=
  set_d_theta q (wrap16 (d_theta q + _df)).

(** [nco_crcq16_set_phase] *)
Definition nco_crcq16_set_phase (q : nco_crcq16_s) (_phi : Z) : nco_crcq16_s :=
  nco_crcq16_constrain_phase (set_theta q _phi).

(** [nco_crcq16_adjust_phase] *)
Definition nco_crcq16_adjust_phase (q : nco_crcq16_s) (_dphi : Z) : nco_crcq16_s :=
  nco_crcq16_constrain_phase (set_theta q (wrap16 (theta q + _dphi))).

(** [nco_crcq16_step] *)
Definition nco_crcq16_step (q : nco_crcq16_s) : nco_crcq16_s :=
  nco_crcq16_constrain_phase (set_theta q (wrap16 (theta q + d_theta q))).

(** [nco_crcq16_get_phase], [nco_crcq16_get_frequency] *)
Definition nco_crcq16_get_phase (q : nco_crcq16_s) : Z := theta q.
Definition nco_crcq16_get_frequency (q : nco_crcq16_s) : Z := d_theta q.

(** [nco_crcq16_pll_step] *)
Definition nco_crcq16_pll_step (q : nco_crcq16_s) (_dphi : Z) : nco_crcq16_s :=
  let '(f, error_filtered) := iirfiltsos_rrrq16_execute_df1 (pll_filter q) _dphi in
  nco_crcq16_adjust_frequency (set_pll_filter q f) error_filtered.

(** ** Creation and reset *)

(** [nco_crcq16_reset] *)
Definition nco_crcq16_reset (q : nco_crcq16_s) : nco_crcq16_s :=
  let q1 := set_d_theta (set_theta q 0) 0 in
  let q2 := set_index q1 0 in
  let q3 := set_sine_cosine q2 0 1 in
  nco_crcq16_pll_reset q3.

(** [nco_crcq16_create].  The fields that [malloc] leaves uninitialised are
    written before they are read; they start here at 0 and [sincos_nco]. *)
Definition nco_crcq16_create (_type : liquid_ncotype) : result nco_crcq16_s :=
  let a0 := (q16_one, 0, 0) in
  let b0 := (0, 0, 0) in
  let q := mk_nco _type 0 0 (map q16_sintab_entry (map Z.of_nat (seq 0 256)))
                  0 0 0 sincos_nco 0 0 a0 b0
                  (iirfiltsos_rrrq16_create b0 a0) in
  let q := nco_crcq16_reset q in
  bind (nco_crcq16_pll_set_bandwidth q
          (float_to_q16 fptosi_undef NCO_PLL_BANDWIDTH_DEFAULT))
       (fun q =>
          match type q with
          | LIQUID_NCO => Ok (set_compute_sincos q sincos_nco)
          | LIQUID_VCO => Ok (set_compute_sincos q sincos_vco)
          | LIQUID_NCOTYPE_OTHER v =>
              Exit ("error: nco_crcq16_create(), unknown type : " ++ printf_u v)
          end).

(** ** Trigonometric outputs *)

(** [nco_crcq16_sin], [nco_crcq16_cos], [nco_crcq16_sincos],
    [nco_crcq16_cexpf]: the state after the computation and the value
    returned. *)
Definition nco_crcq16_sin (q : nco_crcq16_s) : result (nco_crcq16_s * Z) :=
  bind (call_compute_sincos q) (fun q => Ok (q, sine q)).

Definition nco_crcq16_cos (q : nco_crcq16_s) : result (nco_crcq16_s * Z) :=
  bind (call_compute_sincos q) (fun q => Ok (q, cosine q)).

Definition nco_crcq16_sincos (q : nco_crcq16_s) : result (nco_crcq16_s * (Z * Z)) :=
  bind (call_compute_sincos q) (fun q => Ok (q, (sine q, cosine q))).

Definition nco_crcq16_cexpf (q : nco_crcq16_s) : result (nco_crcq16_s * cq16_t) :=
  bind (call_compute_sincos q) (fun q => Ok (q, mk_cq16 (cosine q) (sine q))).

(** ** Mixing *)

(** [nco_crcq16_mix_up] *)
Definition nco_crcq16_mix_up (q : nco_crcq16_s) (_x : cq16_t)
  : result (nco_crcq16_s * cq16_t) :=
  bind (call_compute_sincos q)
       (fun q => Ok (q, cq16_mul _x (mk_cq16 (cosine q) (sine q)))).

(** [nco_crcq16_mix_down] *)
Definition nco_crcq16_mix_down (q : nco_crcq16_s) (_x : cq16_t)
  : result (nco_crcq16_s * cq16_t) :=
  bind (call_compute_sincos q)
       (fun q => Ok (q, cq16_mul _x (mk_cq16 (cosine q) (wrap16 (- sine q))))).

(** [nco_crcq16_mix_block_up]: the loop over [_x[0.._n-1]], the array and
    its length as a list. *)
Fixpoint nco_crcq16_mix_block_up (q : nco_crcq16_s) (_x : list cq16_t)
  : result (nco_crcq16_s * list cq16_t) :=
  match _x with
  | [] => Ok (q, [])
  | x :: rest =>
      bind (nco_crcq16_mix_up q x)
           (fun '(q1, y) =>
              bind (nco_crcq16_mix_block_up q1 rest)
                   (fun '(q2, ys) => Ok (q2, y :: ys)))
  end.

(** [nco_crcq16_mix_block_down] *)
Fixpoint nco_crcq16_mix_block_down (q : nco_crcq16_s) (_x : list cq16_t)
  : result (nco_crcq16_s * list cq16_t) :=
  match _x with
  | [] => Ok (q, [])
  | x :: rest =>
      bind (nco_crcq16_mix_down q x)
           (fun '(q1, y) =>
              bind (nco_crcq16_mix_block_down q1 rest)
                   (fun '(q2, ys) => Ok (q2, y :: ys)))
  end.

End Nco.

Arguments type {_} _.
Arguments theta {_} _.
Arguments d_theta {_} _.
Arguments sintab {_} _.
Arguments index {_} _.
Arguments sine {_} _.
Arguments cosine {_} _.
Arguments compute_sincos {_} _.
Arguments bandwidth {_} _.
Arguments zeta {_} _.
Arguments a {_} _.
Arguments b {_} _.
Arguments pll_filter {_} _.
Arguments mk_nco {_}.
Arguments set_theta {_} q v.
Arguments set_d_theta {_} q v.
Arguments set_index {_} q v.
Arguments set_sine_cosine {_} q s c.
Arguments set_compute_sincos {_} q f.
Arguments set_pll_filter {_} q f.
Arguments set_pll {_} q bw z bs as_ f.
Arguments nco_crcq16_constrain_phase q16_pi q16_2pi {_} q.
Arguments nco_crcq16_constrain_frequency q16_pi q16_2pi {_} q.
Arguments nco_crcq16_compute_sincos_nco {_} fptoui_undef q.
Arguments nco_crcq16_compute_sincos_vco q16_sin q16_cos {_} q.
Arguments call_compute_sincos q16_sin q16_cos {_} fptoui_undef q.
Arguments nco_crcq16_pll_reset {_} iirfiltsos_rrrq16_clear q.
Arguments nco_crcq16_pll_set_bandwidth {_} iirfiltsos_rrrq16_set_coefficients fptosi_undef q _b.
Arguments nco_crcq16_set_frequency {_} q _f.
Arguments nco_crcq16_adjust_frequency {_} q _df.
Arguments nco_crcq16_set_phase q16_pi q16_2pi {_} q _phi.
Arguments nco_crcq16_adjust_phase q16_pi q16_2pi {_} q _dphi.
Arguments nco_crcq16_step q16_pi q16_2pi {_} q.
Arguments nco_crcq16_get_phase {_} q.
Arguments nco_crcq16_get_frequency {_} q.
Arguments nco_crcq16_pll_step {_} iirfiltsos_rrrq16_execute_df1 q _dphi.
Arguments nco_crcq16_reset {_} iirfiltsos_rrrq16_clear q.
Arguments nco_crcq16_create q16_one q16_sintab_entry {_} iirfiltsos_rrrq16_create
  iirfiltsos_rrrq16_set_coefficients iirfiltsos_rrrq16_clear fptosi_undef _type.
Arguments nco_crcq16_sin q16_sin q16_cos {_} fptoui_undef q.
Arguments nco_crcq16_cos q16_sin q16_cos {_} fptoui_undef q.
Arguments nco_crcq16_sincos q16_sin q16_cos {_} fptoui_undef q.
Arguments nco_crcq16_cexpf q16_sin q16_cos {_} fptoui_undef q.
Arguments nco_crcq16_mix_up q16_sin q16_cos cq16_mul {_} fptoui_undef q _x.
Arguments nco_crcq16_mix_down q16_sin q16_cos cq16_mul {_} fptoui_undef q _x.
Arguments nco_crcq16_mix_block_up q16_sin q16_cos cq16_mul {_} fptoui_undef q _x.
Arguments nco_crcq16_mix_block_down q16_sin q16_cos cq16_mul {_} fptoui_undef q _x.

(* ================================================================== *)
(** * ofdmframe.common.c : definitions *)

(** [float complex] *)
Record float_complex : Type := mk_fc { crealf : spec_float; cimagf : spec_float }.

(** A [float] assigned to a [float complex] object. *)
Definition fc_of_float (x : spec_float) : float_complex := mk_fc x f32_zero.

(** [z *= g] for a [float] g: both parts are scaled. *)
Definition fc_scale (z : float_complex) (g : spec_float) : float_complex :=
  mk_fc (f32_mul (crealf z) g) (f32_mul (cimagf z) g).

(** Increment of an [unsigned int]. *)
Definition uint_incr (n : Z) : Z := (n + 1) mod 2 ^ 32.

(** The indices 0 .. [_M]-1 of an array of [_M] elements. *)
Definition subcarrier_indices (_p : list Z) : list Z :=
  map Z.of_nat (seq 0 (length _p)).

(** [_p[i] = v] inside the array. *)
Fixpoint array_set (_p : list Z) (i : nat) (v : Z) : list Z :=
  match _p, i with
  | [], _ => []
  | _ :: rest, O => v :: rest
  | x :: rest, S j => x :: array_set rest j v
  end.

(** [_p[i] = v]: nothing defined when [i] is outside the array. *)
Definition array_store (_p : list Z) (i : Z) (v : Z) : option (list Z) :=
  if (0 <=? i) && (i <? Z.of_nat (length _p)) then
    Some (array_set _p (Z.to_nat i) v)
  else None.

(** How a loop that writes an array ends. *)
Inductive sctype_outcome : Type :=
| Sc_done (_p : list Z)
| Sc_out_of_bounds (i : Z)
| Sc_out_of_fuel.

Section Ofdmframe.

(** The subcarrier tag of a null subcarrier (liquid.h). *)
Variable OFDMFRAME_SCTYPE_NULL : Z.

(** The tags of pilot and data subcarriers (liquid.h). *)
Variables OFDMFRAME_SCTYPE_PILOT OFDMFRAME_SCTYPE_DATA : Z.

(** [liquid_nextpow2]; the m-sequence generator: its state, the default
    generator of a given length, and [msequence_generate_symbol], which
    advances the state and returns a symbol; the FFT in its reverse
    direction, [fft_run(_M, x, y, FFT_REVERSE, 0)]. *)
Variable liquid_nextpow2 : Z -> Z.
Variable msequence : Type.
Variable msequence_create_default : Z -> msequence.
Variable msequence_generate_symbol : msequence -> Z -> msequence * Z.
Variable fft_run_reverse : Z -> list float_complex -> list float_complex.

(** The m-sequence length chosen by [ofdmframe_init_S0]. *)
Definition S0_msequence_length (_M : Z) : Z :=
  let m := liquid_nextpow2 _M in
  if m <? 4 then 4 else if 8 <? m then 8 else m.

(** The first loop of [ofdmframe_init_S0], from index [i] on: the tags
    [_p[i..]] still to visit, the generator and the counter [M_S0] so far;
    it returns the counter and the symbols [_S0[i..]]. *)
Fixpoint init_S0_loop (_p : list Z) (i : Z) (ms : msequence) (M_S0 : Z)
  : Z * list float_complex :=
  match _p with
  | [] => (M_S0, [])
  | p_i :: rest =>
      let '(ms1, sym) := msequence_generate_symbol ms 3 in
      let s := Z.land sym 1 in
      if p_i =? OFDMFRAME_SCTYPE_NULL then
        let '(n, out) := init_S0_loop rest (i + 1) ms1 M_S0 in
        (n, fc_of_float f32_zero :: out)
      else if i mod 2 =? 0 then
        let '(n, out) := init_S0_loop rest (i + 1) ms1 (uint_incr M_S0) in
        (n, fc_of_float (if s =? 0 then SFopp f32_1 else f32_1) :: out)
      else
        let '(n, out) := init_S0_loop rest (i + 1) ms1 M_S0 in
        (n, fc_of_float f32_zero :: out)
  end.

(** [ofdmframe_init_S0]: the allocation [_p] with its length [_M] as a list;
    on success the outputs [_S0], [_s0] and [*_M_S0]. *)
Definition ofdmframe_init_S0 (_p : list Z)
  : result (list float_complex * list float_complex * Z) :=
  let _M := Z.of_nat (length _p) in
  let ms := msequence_create_default (S0_msequence_length _M) in
  let '(M_S0, _S0) := init_S0_loop _p 0 ms 0 in
  if M_S0 =? 0 then
    Exit "error: ofdmframe_init_S0(), no subcarriers enabled; check allocation"
  else
    let g := f32_div f32_1 (f32_sqrt (f32_of_Z M_S0)) in
    Ok (_S0, map (fun z => fc_scale z g) (fft_run_reverse _M _S0), M_S0).

(** The m-sequence length chosen by [ofdmframe_init_S1]: one more. *)
Definition S1_msequence_length (_M : Z) : Z :=
  uint_incr (S0_msequence_length _M).

(** The first loop of [ofdmframe_init_S1]. *)
Fixpoint init_S1_loop (_p : list Z) (ms : msequence) (M_S1 : Z)
  : Z * list float_complex :=
  match _p with
  | [] => (M_S1, [])
  | p_i :: rest =>
      let '(ms1, sym) := msequence_generate_symbol ms 3 in
      let s := Z.land sym 1 in
      if p_i =? OFDMFRAME_SCTYPE_NULL then
        let '(n, out) := init_S1_loop rest ms1 M_S1 in
        (n, fc_of_float f32_zero :: out)
      else
        let '(n, out) := init_S1_loop rest ms1 (uint_incr M_S1) in
        (n, fc_of_float (if s =? 0 then SFopp f32_1 else f32_1) :: out)
  end.

(** [ofdmframe_init_S1] *)
Definition ofdmframe_init_S1 (_p : list Z)
  : result (list float_complex * list float_complex * Z) :=
  let _M := Z.of_nat (length _p) in
  let ms := msequence_create_default (S1_msequence_length _M) in
  let '(M_S1, _S1) := init_S1_loop _p ms 0 in
  if M_S1 =? 0 then
    Exit "error: ofdmframe_init_S1(), no subcarriers enabled; check allocation"
  else
    let g := f32_div f32_1 (f32_sqrt (f32_of_Z M_S1)) in
    Ok (_S1, map (fun z => fc_scale z g) (fft_run_reverse _M _S1), M_S1).

(** The tag that the two band loops of [ofdmframe_init_default_sctype]
    write for the loop index [i]. *)
Definition default_sctype_tag (P P2 i : Z) : Z :=
  if ((i + P2) mod 2 ^ 32) mod P =? 0 then OFDMFRAME_SCTYPE_PILOT
  else OFDMFRAME_SCTYPE_DATA.

(** One band loop, [for (i = i0; i < bound; i++) _p[index_of i] = tag],
    run for at most [fuel] iterations; a store outside the array stops it. *)
Fixpoint default_sctype_band (fuel : nat) (index_of : Z -> Z) (i bound P P2 : Z)
                             (_p : list Z) : sctype_outcome :=
  if i <? bound then
    match fuel with
    | O => Sc_out_of_fuel
    | S fuel' =>
        match array_store _p (index_of i) (default_sctype_tag P P2 i) with
        | Some p' => default_sctype_band fuel' index_of (uint_incr i) bound P P2 p'
        | None => Sc_out_of_bounds (index_of i)
        end
    end
  else Sc_done _p.

(** The locals [G] and [P] of [ofdmframe_init_default_sctype]. *)
Definition default_sctype_G (_M : Z) : Z :=
  let G := _M / 10 in if G <? 2 then 2 else G.

Definition default_sctype_P (_M : Z) : Z := if 34 <? _M then 8 else 4.

(** The bound [M2 - G] of the band loops, an [unsigned int]. *)
Definition default_sctype_bound (_M : Z) : Z :=
  (_M / 2 - default_sctype_G _M) mod 2 ^ 32.

(** [ofdmframe_init_default_sctype] on an array of [_M] elements: whether
    the warning is written, and the array written or the index of the first
    store outside it.  The band loops get [_M + 2] iterations of fuel, more
    than they can take without leaving the array. *)
Definition ofdmframe_init_default_sctype (_M : Z) : bool * sctype_outcome :=
  let P := default_sctype_P _M in
  let P2 := P / 2 in
  let bound := default_sctype_bound _M in
  let fuel := (Z.to_nat _M + 2)%nat in
  let p0 := repeat OFDMFRAME_SCTYPE_NULL (Z.to_nat _M) in
  (_M <? 6,
   match default_sctype_band fuel (fun i => i) 1 bound P P2 p0 with
   | Sc_done p1 =>
       default_sctype_band fuel (fun i => (_M - i) mod 2 ^ 32) 1 bound P P2 p1
   | stop => stop
   end).

(** The loop of [ofdmframe_validate_sctype] with its three counters. *)
Fixpoint validate_sctype_loop (_p : list Z) (M_null M_pilot M_data : Z)
  : result (Z * Z * Z) :=
  match _p with
  | [] => Ok (M_null, M_pilot, M_data)
  | p_i :: rest =>
      if p_i =? OFDMFRAME_SCTYPE_NULL then
        validate_sctype_loop rest (uint_incr M_null) M_pilot M_data
      else if p_i =? OFDMFRAME_SCTYPE_PILOT then
        validate_sctype_loop rest M_null (uint_incr M_pilot) M_data
      else if p_i =? OFDMFRAME_SCTYPE_DATA then
        validate_sctype_loop rest M_null M_pilot (uint_incr M_data)
      else
        Exit ("error: ofdmframe_validate_sctype(), invalid subcarrier type ("
              ++ printf_u p_i ++ ")")
  end.

(** [ofdmframe_validate_sctype]: the outputs [*_M_null], [*_M_pilot] and
    [*_M_data]. *)
Definition ofdmframe_validate_sctype (_p : list Z) : result (Z * Z * Z) :=
  validate_sctype_loop _p 0 0 0.

(** The character [ofdmframe_print_sctype] writes for a tag, if any. *)
Definition print_sctype_char (t : Z) : option String.string :=
  if t =? OFDMFRAME_SCTYPE_NULL then Some "."
  else if t =? OFDMFRAME_SCTYPE_PILOT then Some "|"
  else if t =? OFDMFRAME_SCTYPE_DATA then Some "+"
  else None.

(** The loop of [ofdmframe_print_sctype] over the indices [is_]: what is
    written to stdout, and whether the process exits. *)
Fixpoint print_sctype_loop (_p : list Z) (_M : Z) (is_ : list Z)
  : String.string * bool :=
  match is_ with
  | [] => ("", false)
  | i :: rest =>
      let k := ((i + _M / 2) mod 2 ^ 32) mod _M in
      match print_sctype_char (nth (Z.to_nat k) _p 0) with
      | Some c =>
          let '(text, exits) := print_sctype_loop _p _M rest in
          (c ++ text, exits)
      | None => ("", true)
      end
  end.

(** [ofdmframe_print_sctype]: the text written to stdout and, when a tag is
    invalid, the diagnostic before [exit(1)]. *)
Definition ofdmframe_print_sctype (_p : list Z)
  : String.string * option String.string :=
  let _M := Z.of_nat (length _p) in
  let '(text, exits) := print_sctype_loop _p _M (subcarrier_indices _p) in
  if exits then
    ("[" ++ text,
     Some "error: ofdmframe_print_default_sctype(), invalid subcarrier type")
  else ("[" ++ text ++ "]" ++ String (Ascii.ascii_of_nat 10) "", None).

End Ofdmframe.

Arguments init_S0_loop OFDMFRAME_SCTYPE_NULL {_} msequence_generate_symbol _p i ms M_S0.
Arguments ofdmframe_init_S0 OFDMFRAME_SCTYPE_NULL liquid_nextpow2 {_}
  msequence_create_default msequence_generate_symbol fft_run_reverse _p.
Arguments init_S1_loop OFDMFRAME_SCTYPE_NULL {_} msequence_generate_symbol _p ms M_S1.
Arguments ofdmframe_init_S1 OFDMFRAME_SCTYPE_NULL liquid_nextpow2 {_}
  msequence_create_default msequence_generate_symbol fft_run_reverse _p.

(** The subcarriers the long sequence has to enable, the tags that are not
    null, and their number. *)
Definition S1_active (null : Z) (_p : list Z) : list bool :=
  map (fun t => negb (t =? null)) _p.

Definition S1_active_count (null : Z) (_p : list Z) : Z :=
  Z.of_nat (length (filter (fun on => on) (S1_active null _p))).

(** The characters written for a sequence of tags taken in order, up to the
    first tag with no character, and whether there is such a tag. *)
Fixpoint print_tags (char : Z -> option String.string) (tags : list Z)
  : String.string * bool :=
  match tags with
  | [] => ("", false)
  | t :: rest =>
      match char t with
      | Some c => let '(text, stops) := print_tags char rest in (c ++ text, stops)
      | None => ("", true)
      end
  end.

(** The symbols the m-sequence generator returns in [n] successive calls
    [msequence_generate_symbol(ms, 3)]. *)
Fixpoint msequence_symbols {msequence : Type}
         (msequence_generate_symbol : msequence -> Z -> msequence * Z)
         (ms : msequence) (n : nat) : list Z :=
  match n with
  | O => []
  | S k =>
      let '(ms1, sym) := msequence_generate_symbol ms 3 in
      sym :: msequence_symbols msequence_generate_symbol ms1 k
  end.

(** The symbol written for an enabled subcarrier, +1 or -1 by the low bit
    of the generator's symbol, and for a disabled one, 0. *)
Definition sequence_symbol (on : bool) (sym : Z) : float_complex :=
  if on then fc_of_float (if Z.land sym 1 =? 0 then SFopp f32_1 else f32_1)
  else fc_of_float f32_zero.

Definition sequence_symbols (active : list bool) (syms : list Z) : list float_complex :=
  map (fun it => sequence_symbol (fst it) (snd it)) (combine active syms).

(** A tag is valid when it is one of the three. *)
Definition sctype_valid (null pilot data : Z) (t : Z) : bool :=
  (t =? null) || (t =? pilot) || (t =? data).

(** The number of tags equal to [t]. *)
Definition sctype_count (t : Z) (_p : list Z) : Z :=
  Z.of_nat (length (filter (fun x => x =? t) _p)).

(** The biquad section run on a sequence of inputs: its final state and its
    outputs. *)
Fixpoint iirfiltsos_run {F : Type} (execute_df1 : F -> Z -> F * Z)
                        (f : F) (xs : list Z) : F * list Z :=
  match xs with
  | [] => (f, [])
  | x :: rest =>
      let '(f1, y) := execute_df1 f x in
      let '(f2, ys) := iirfiltsos_run execute_df1 f1 rest in
      (f2, y :: ys)
  end.

(** The subcarriers the short sequence has to enable: for each index,
    whether it is even and its tag is not null.  Their number. *)
Definition S0_active (null : Z) (_p : list Z) : list bool :=
  map (fun it => Z.even (fst it) && negb (snd it =? null))
      (combine (subcarrier_indices _p) _p).

Definition S0_active_count (null : Z) (_p : list Z) : Z :=
  Z.of_nat (length (filter (fun on => on) (S0_active null _p))).

(** A symbol of [_S0] is off when it is 0 and on when it is +1 or -1. *)
Definition fc_is_zero (z : float_complex) : bool :=
  match crealf z, cimagf z with
  | S754_zero _, S754_zero _ => true
  | _, _ => false
  end.

Definition fc_is_unit (z : float_complex) : bool :=
  match crealf z, cimagf z with
  | S754_finite _ 8388608 (-23), S754_zero _ => true
  | _, _ => false
  end.

(* ================================================================== *)
(** * Statements about the code: auxiliary definitions *)

(** What the proofs need of the angular constants: pi is positive, 2*pi
    lies above pi and at most at twice pi, and is a [q16_t] value. *)
Definition q16_angles_ok (q16_pi q16_2pi : Z) : Prop :=
  0 < q16_pi /\ q16_pi < q16_2pi /\ q16_2pi <= 2 * q16_pi /\ q16_2pi <= q16_max.

(** The table index as the specification states it,
    [round(phase * 256/(2 pi)) + 128] masked into [0, 255], for the stored
    phase [th]: the phase is the angle of [th / q16_2pi] of a turn, so
    [phase * 256/(2 pi)] is [th * 256 / q16_2pi], here rounded to nearest. *)
Definition claimed_nco_index (q16_2pi th : Z) : Z :=
  Z.land ((2 * (th * 256) + q16_2pi) / (2 * q16_2pi) + 128) 255.

(** The feed-back coefficient [a1 = -1 + t1/2] with [t1 = K/wn^2], [wn = b],
    as the specification states it, over the rationals. *)
Definition claimed_a1 (_b : Z) : Q :=
  (- (1) + (inject_Z NCO_PLL_GAIN_DEFAULT / (inject_Z _b * inject_Z _b)) / inject_Z 2)%Q.

(** [f] holds on the [n] integers from [lo] on (by halving the interval). *)
Fixpoint all_range (f : Z -> bool) (lo : Z) (n : positive) : bool :=
  match n with
  | xH => f lo
  | xO p => all_range f lo p && all_range f (lo + Zpos p) p
  | xI p => f lo && (all_range f (lo + 1) p && all_range f (lo + 1 + Zpos p) p)
  end.

(** The first element of a triple of coefficients, and so on. *)
Definition coef0 (c : Z * Z * Z) : Z := fst (fst c).
Definition coef1 (c : Z * Z * Z) : Z := snd (fst c).
Definition coef2 (c : Z * Z * Z) : Z := snd c.

(** The check of the integer part of the biased, scaled phase against the
    exact product: [|u - 512 - theta * 40.743665| <= 0.53]. *)
Definition sincos_nco_arg_ok (th : Z) : bool :=
  match SFtrunc (sincos_nco_arg th) with
  | Some u =>
      (0 <=? u) && (u <? 2 ^ 32) &&
      (Z.abs (2000000 * (u - 512) - 2 * th * 40743665) <=? 1060000)
  | None => false
  end.

(** The check of the six converted coefficients at bandwidth [_b] against
    their integer description. *)
Definition pll_coefficients_ok (_b : Z) : bool :=
  match SFtrunc (pll_b0 _b), SFtrunc pll_b1, SFtrunc (pll_b2 _b),
        SFtrunc (pll_a0 _b), SFtrunc (pll_a1 _b) with
  | Some b0, Some b1, Some b2, Some a0, Some a1 =>
      let k := b0 - 1999 in
      in_q16b b0 && in_q16b b1 && in_q16b b2 && in_q16b a0 && in_q16b a1 &&
      (0 <=? k) && (k * k * (_b * _b) <=? 2000000) &&
      (2000000 <? (k + 1) * (k + 1) * (_b * _b)) &&
      (b1 =? 4000) && (b2 =? 2000 - k) &&
      (a0 =? 1 + 500 / (_b * _b)) && (a1 =? Z.quot (500 - _b * _b) (_b * _b))
  | _, _, _, _, _ => false
  end.

(** ** An instance of the parameters

    pi and 2*pi with 12 fractional bits, a biquad section with no state, a
    complex product that returns its first operand, zero for every other
    function. *)
Definition example_pi : Z := 12868.
Definition example_2pi : Z := 25736.
Definition example_undef (x : spec_float) : Z := 0.
Definition example_execute_df1 (f : unit) (x : Z) : unit * Z := (tt, x).
Definition example_set_coefficients (f : unit) (bs as_ : Z * Z * Z) : unit := tt.
Definition example_create (bs as_ : Z * Z * Z) : unit := tt.
Definition example_clear (f : unit) : unit := tt.
Definition example_cq16_mul (x v : cq16_t) : cq16_t := x.
Definition example_fn (x : Z) : Z := 0.

Definition example_nco : nco_crcq16_s unit :=
  mk_nco LIQUID_NCO 0 0 (repeat 0 256) 0 0 0 sincos_nco 0 0 (0, 0, 0) (0, 0, 0) tt.

(** The oscillator [nco_crcq16_create] returns in the instance for the
    NCO type. *)
Definition example_created : nco_crcq16_s unit :=
  match nco_crcq16_create 4096 example_fn example_create example_set_coefficients
          example_clear example_undef LIQUID_NCO with
  | Ok q => q
  | Exit _ => example_nco
  end.

(** The m-sequence generator of the instance: a counter whose symbols are
    its successive values. *)
Definition example_generate_symbol (ms : Z) (n : Z) : Z * Z := (ms + 1, ms).
Definition example_fft (_M : Z) (x : list float_complex) : list float_complex := x.

(* ================================================================== *)
(** * Properties *)

(** ** Integer and floating-point facts *)

Lemma wrap16_small (z : Z) : in_q16 z -> wrap16 z = z.
Proof.
  unfold in_q16, q16_min, q16_max, wrap16. intros H.
  rewrite Z.mod_small; lia.
Qed.

Lemma wrap16_range (z : Z) : in_q16 (wrap16 z).
Proof.
  unfold in_q16, q16_min, q16_max, wrap16.
  pose proof (Z.mod_pos_bound (z + 32768) 65536). lia.
Qed.

Lemma wrap16_congr (z : Z) : (wrap16 z - z) mod 65536 = 0.
Proof.
  unfold wrap16. rewrite (Z.mod_eq (z + 32768) 65536) by lia.
  replace (z + 32768 - 65536 * ((z + 32768) / 65536) - 32768 - z)
    with (- ((z + 32768) / 65536) * 65536) by lia.
  apply Z.mod_mul. lia.
Qed.

Lemma in_q16b_true (z : Z) : in_q16b z = true <-> in_q16 z.
Proof.
  unfold in_q16b, in_q16. rewrite andb_true_iff, !Z.leb_le. tauto.
Qed.

Lemma land_255_range (z : Z) : 0 <= Z.land z 255 < 256.
Proof.
  change 255 with (Z.ones 8). rewrite Z.land_ones by lia.
  change (2 ^ 8) with 256. apply Z.mod_pos_bound. lia.
Qed.

Lemma land_255_mod (z : Z) : Z.land z 255 = z mod 256.
Proof.
  change 255 with (Z.ones 8). rewrite Z.land_ones by lia. reflexivity.
Qed.

Lemma all_range_spec (f : Z -> bool) (n : positive) :
  forall lo, all_range f lo n = true ->
  forall z, lo <= z < lo + Zpos n -> f z = true.
Proof.
  induction n as [p IH | p IH | ]; simpl; intros lo H z Hz.
  - apply andb_true_iff in H. destruct H as [H0 H].
    apply andb_true_iff in H. destruct H as [H1 H2].
    destruct (Z.eq_dec z lo) as [-> | Hne]; [exact H0 |].
    destruct (Z_lt_dec z (lo + 1 + Zpos p)).
    + apply (IH (lo + 1)); [exact H1 | lia].
    + apply (IH (lo + 1 + Zpos p)); [exact H2 | lia].
  - apply andb_true_iff in H. destruct H as [H1 H2].
    destruct (Z_lt_dec z (lo + Zpos p)).
    + apply (IH lo); [exact H1 | lia].
    + apply (IH (lo + Zpos p)); [exact H2 | lia].
  - assert (z = lo) by lia. subst z. exact H.
Qed.

(** The literal [40.743665f] is the binary32 value nearest to 40.743665:
    it has 24 significant bits and lies within half a unit in the last
    place (2^-19) of the decimal. *)
Lemma f32_40_743665_nearest :
  f32_40_743665 = S754_finite false 10680707 (-18) /\
  2 ^ 23 <= 10680707 < 2 ^ 24 /\
  2 * Z.abs (10680707 * 1000000 - 40743665 * 2 ^ 18) <= 1000000.
Proof. repeat split; vm_compute; congruence. Qed.

(** An [int16_t] converted to [float] is below [0.0f] exactly when it is
    negative. *)
Lemma f32_of_Z_ltb_zero (z : Z) :
  in_q16 z -> f32_ltb (f32_of_Z z) f32_zero = (z <? 0).
Proof.
  intros Hz.
  assert (H : all_range (fun z => Bool.eqb (f32_ltb (f32_of_Z z) f32_zero) (z <? 0))
                (-32768) 65536 = true) by (vm_compute; reflexivity).
  apply eqb_prop.
  apply (all_range_spec _ _ _ H). unfold in_q16, q16_min, q16_max in Hz. lia.
Qed.

(** The value converted to [unsigned int] by the NCO table lookup, for every
    phase from -12 up: its integral part [u] is a valid [unsigned int] and
    [u - 512] is within 0.53 of [theta * 40.743665]. *)
Lemma sincos_nco_arg_checked (th : Z) :
  -12 <= th <= q16_max -> sincos_nco_arg_ok th = true.
Proof.
  intros Hth.
  assert (H : all_range sincos_nco_arg_ok (-12) 32780 = true)
    by (vm_compute; reflexivity).
  apply (all_range_spec _ _ _ H). unfold q16_max in Hth. lia.
Qed.

(** The converted loop-filter coefficients for every positive bandwidth. *)
Lemma pll_coefficients_checked (_b : Z) :
  1 <= _b <= q16_max -> pll_coefficients_ok _b = true.
Proof.
  intros Hb.
  assert (H : all_range pll_coefficients_ok 1 32767 = true)
    by (vm_compute; reflexivity).
  apply (all_range_spec _ _ _ H). unfold q16_max in Hb. lia.
Qed.

(** ** Phase and frequency of the oscillator *)

Section NcoPhase.

Variables q16_pi q16_2pi : Z.
Variable iirfiltsos_rrrq16 : Type.

Lemma constrain_phase_theta (q : nco_crcq16_s iirfiltsos_rrrq16) :
  theta (nco_crcq16_constrain_phase q16_pi q16_2pi q) =
  if q16_pi <? theta q then wrap16 (theta q - q16_2pi)
  else if theta q <? - q16_pi then wrap16 (theta q + q16_2pi)
  else theta q.
Proof.
  unfold nco_crcq16_constrain_phase.
  destruct (q16_pi <? theta q); [reflexivity |].
  destruct (theta q <? - q16_pi); reflexivity.
Qed.

Lemma constrain_phase_d_theta (q : nco_crcq16_s iirfiltsos_rrrq16) :
  d_theta (nco_crcq16_constrain_phase q16_pi q16_2pi q) = d_theta q.
Proof.
  unfold nco_crcq16_constrain_phase.
  destruct (q16_pi <? theta q); [reflexivity |].
  destruct (theta q <? - q16_pi); reflexivity.
Qed.

(** One correction brings a phase of magnitude below 2*pi into [-pi, pi],
    leaves it congruent modulo 2*pi, and yields -pi only from -pi. *)
Lemma constrain_phase_bounds (q : nco_crcq16_s iirfiltsos_rrrq16) :
  q16_angles_ok q16_pi q16_2pi ->
  - q16_2pi < theta q < q16_2pi ->
  let th := theta (nco_crcq16_constrain_phase q16_pi q16_2pi q) in
  - q16_pi <= th <= q16_pi /\
  (th = - q16_pi -> theta q = - q16_pi) /\
  (th = theta q \/ th = theta q - q16_2pi \/ th = theta q + q16_2pi).
Proof.
  unfold q16_angles_ok, q16_max. intros (Hpi & Hlt & Hle & Hmax) Hth.
  cbv zeta. rewrite constrain_phase_theta.
  destruct (Z.ltb_spec q16_pi (theta q)) as [H1 | H1].
  - rewrite wrap16_small by (unfold in_q16, q16_min, q16_max; lia). lia.
  - destruct (Z.ltb_spec (theta q) (- q16_pi)) as [H2 | H2].
    + rewrite wrap16_small by (unfold in_q16, q16_min, q16_max; lia). lia.
    + lia.
Qed.

Lemma step_d_theta (q : nco_crcq16_s iirfiltsos_rrrq16) :
  d_theta (nco_crcq16_step q16_pi q16_2pi q) = d_theta q.
Proof. unfold nco_crcq16_step. rewrite constrain_phase_d_theta. reflexivity. Qed.

(** One step with a frequency of magnitude at most pi, from a constrained
    phase: the phase stays constrained and advances by the frequency
    modulo 2*pi. *)
Lemma step_bounds (q : nco_crcq16_s iirfiltsos_rrrq16) :
  q16_angles_ok q16_pi q16_2pi -> 2 * q16_pi <= q16_max ->
  - q16_pi <= theta q <= q16_pi ->
  - q16_pi <= d_theta q <= q16_pi ->
  let th := theta (nco_crcq16_step q16_pi q16_2pi q) in
  - q16_pi <= th <= q16_pi /\
  exists k, th = theta q + d_theta q + k * q16_2pi.
Proof.
  unfold q16_angles_ok, q16_max. intros (Hpi & Hlt & Hle & Hmax) H2pi Hth Hf.
  cbv zeta. unfold nco_crcq16_step. rewrite constrain_phase_theta. simpl theta.
  rewrite (wrap16_small (theta q + d_theta q))
    by (unfold in_q16, q16_min, q16_max; lia).
  destruct (Z.ltb_spec q16_pi (theta q + d_theta q)) as [H1 | H1].
  - rewrite wrap16_small by (unfold in_q16, q16_min, q16_max; lia).
    split; [lia | exists (-1); lia].
  - destruct (Z.ltb_spec (theta q + d_theta q) (- q16_pi)) as [H2 | H2].
    + rewrite wrap16_small by (unfold in_q16, q16_min, q16_max; lia).
      split; [lia | exists 1; lia].
    + split; [lia | exists 0; lia].
Qed.

Lemma steps_d_theta (q : nco_crcq16_s iirfiltsos_rrrq16) (n : nat) :
  d_theta (Nat.iter n (nco_crcq16_step q16_pi q16_2pi) q) = d_theta q.
Proof.
  induction n as [| n IH]; simpl; [reflexivity |].
  rewrite step_d_theta. exact IH.
Qed.

Lemma steps_bounds (q : nco_crcq16_s iirfiltsos_rrrq16) (n : nat) :
  q16_angles_ok q16_pi q16_2pi -> 2 * q16_pi <= q16_max ->
  - q16_pi <= theta q <= q16_pi ->
  - q16_pi <= d_theta q <= q16_pi ->
  let th := theta (Nat.iter n (nco_crcq16_step q16_pi q16_2pi) q) in
  - q16_pi <= th <= q16_pi /\
  exists k, th = theta q + Z.of_nat n * d_theta q + k * q16_2pi.
Proof.
  intros Hok H2pi Hth Hf. cbv zeta.
  induction n as [| n IH].
  - simpl. split; [lia | exists 0; lia].
  - destruct IH as [IHr [k IHk]].
    rewrite Nat.iter_succ.
    set (qn := Nat.iter n (nco_crcq16_step q16_pi q16_2pi) q) in *.
    assert (Hfn : - q16_pi <= d_theta qn <= q16_pi)
      by (unfold qn; rewrite steps_d_theta; exact Hf).
    destruct (step_bounds qn Hok H2pi IHr Hfn) as [Hr [k' Hk']].
    split; [exact Hr |].
    exists (k + k'). rewrite Hk', IHk.
    unfold qn. rewrite steps_d_theta. lia.
Qed.

(** C1 (as amended).  After [nco_crcq16_set_phase], and after
    [nco_crcq16_adjust_phase] or [nco_crcq16_step], when the phase before
    the correction has a magnitude below 2*pi, the stored phase lies in the
    closed interval [-pi, pi]; it is -pi only when the phase before the
    correction was -pi. *)
Theorem phase_constrained_after_update (q : nco_crcq16_s iirfiltsos_rrrq16) :
  q16_angles_ok q16_pi q16_2pi ->
  (forall phi, - q16_2pi < phi < q16_2pi ->
     let th := theta (nco_crcq16_set_phase q16_pi q16_2pi q phi) in
     - q16_pi <= th <= q16_pi /\ (th = - q16_pi -> phi = - q16_pi)) /\
  (forall dphi, - q16_2pi < wrap16 (theta q + dphi) < q16_2pi ->
     let th := theta (nco_crcq16_adjust_phase q16_pi q16_2pi q dphi) in
     - q16_pi <= th <= q16_pi /\
     (th = - q16_pi -> wrap16 (theta q + dphi) = - q16_pi)) /\
  (- q16_2pi < wrap16 (theta q + d_theta q) < q16_2pi ->
     let th := theta (nco_crcq16_step q16_pi q16_2pi q) in
     - q16_pi <= th <= q16_pi /\
     (th = - q16_pi -> wrap16 (theta q + d_theta q) = - q16_pi)).
Proof.
  intros Hok. repeat split.
  - apply (constrain_phase_bounds (set_theta q phi) Hok H).
  - apply (constrain_phase_bounds (set_theta q phi) Hok H).
  - apply (constrain_phase_bounds (set_theta q phi) Hok H).
  - apply (constrain_phase_bounds (set_theta q (wrap16 (theta q + dphi))) Hok H).
  - apply (constrain_phase_bounds (set_theta q (wrap16 (theta q + dphi))) Hok H).
  - apply (constrain_phase_bounds (set_theta q (wrap16 (theta q + dphi))) Hok H).
  - apply (constrain_phase_bounds (set_theta q (wrap16 (theta q + d_theta q))) Hok H).
  - apply (constrain_phase_bounds (set_theta q (wrap16 (theta q + d_theta q))) Hok H).
  - apply (constrain_phase_bounds (set_theta q (wrap16 (theta q + d_theta q))) Hok H).
Qed.

(** C3 (as amended).  Let twice pi be a [q16_t] value.  From phase 0 and
    with a frequency [f] of magnitude at most pi, [n] calls of
    [nco_crcq16_step] leave the phase in [-pi, pi] and equal to [n * f]
    modulo 2*pi, exactly.  When [f] is the fixed-point representation of
    2*pi/256, the integer nearest to it ([|256 * f - 2*pi| <= 128], with
    [128 < 2*pi - pi]), the phase after 256 calls is [256 * f - 2*pi]: back
    at 0 up to the representation error of the frequency accumulated over
    the 256 calls, at most 128 units, and exactly 0 when [256 * f] is 2*pi. *)
Theorem steps_phase (q : nco_crcq16_s iirfiltsos_rrrq16) (f : Z) (n : nat) :
  q16_angles_ok q16_pi q16_2pi -> 2 * q16_pi <= q16_max ->
  theta q = 0 -> d_theta q = f -> - q16_pi <= f <= q16_pi ->
  (let th := theta (Nat.iter n (nco_crcq16_step q16_pi q16_2pi) q) in
   - q16_pi <= th <= q16_pi /\ (th - Z.of_nat n * f) mod q16_2pi = 0) /\
  (2 * Z.abs (256 * f - q16_2pi) <= 256 -> 128 < q16_2pi - q16_pi ->
   let th := theta (Nat.iter 256 (nco_crcq16_step q16_pi q16_2pi) q) in
   th = 256 * f - q16_2pi /\ Z.abs th <= 128 /\
   (256 * f = q16_2pi -> th = 0)).
Proof.
  intros Hok H2pi Hth0 Hf Hfr.
  assert (Hth : - q16_pi <= theta q <= q16_pi)
    by (destruct Hok as (? & _); lia).
  assert (Hfq : - q16_pi <= d_theta q <= q16_pi) by (rewrite Hf; exact Hfr).
  split.
  - cbv zeta. destruct (steps_bounds q n Hok H2pi Hth Hfq) as [Hr [k Hk]].
    split; [exact Hr |].
    rewrite Hk, Hth0, Hf.
    replace (0 + Z.of_nat n * f + k * q16_2pi - Z.of_nat n * f)
      with (k * q16_2pi) by lia.
    apply Z.mod_mul. destruct Hok as (? & ? & _). lia.
  - intros Hnear Hgap. cbv zeta.
    destruct (steps_bounds q 256 Hok H2pi Hth Hfq) as [Hr [k Hk]].
    rewrite Hth0, Hf in Hk.
    change (Z.of_nat 256) with 256 in Hk.
    destruct Hok as (Hpi & Hlt & _).
    set (th := theta (Nat.iter 256 (nco_crcq16_step q16_pi q16_2pi) q)) in *.
    assert (Hk' : th - (256 * f - q16_2pi) = (1 + k) * q16_2pi) by lia.
    assert (H0 : 1 + k = 0) by nia.
    assert (Heq : th = 256 * f - q16_2pi) by (rewrite H0 in Hk'; lia).
    split; [exact Heq |]. split; lia.
Qed.

End NcoPhase.

(** ** Sine and cosine by table lookup *)

Section NcoSincos.

Variables q16_sin q16_cos : Z -> Z.
Variable cq16_mul : cq16_t -> cq16_t -> cq16_t.
Variable iirfiltsos_rrrq16 : Type.
Variable fptoui_undef : spec_float -> Z.

(** [nco_crcq16_compute_sincos_nco] always returns: its assertion holds of
    the masked index whatever the conversion yields.  It writes the index
    and the two table entries and nothing else. *)
Lemma compute_sincos_nco_ok (q : nco_crcq16_s iirfiltsos_rrrq16) :
  let i := Z.land (float_to_uint fptoui_undef (sincos_nco_arg (theta q))) 255 in
  nco_crcq16_compute_sincos_nco fptoui_undef q =
  Ok (set_sine_cosine (set_index q i)
        (nth (Z.to_nat i) (sintab q) 0)
        (nth (Z.to_nat (Z.land (i + 64) 255)) (sintab q) 0)).
Proof.
  cbv zeta. unfold nco_crcq16_compute_sincos_nco. cbn [index set_index sintab].
  pose proof (land_255_range (float_to_uint fptoui_undef (sincos_nco_arg (theta q)))) as H.
  destruct (Z.ltb_spec (Z.land (float_to_uint fptoui_undef (sincos_nco_arg (theta q))) 255) 256);
    [reflexivity | lia].
Qed.

(** The call through the pointer returns in both modes and keeps every
    field but [index], [sine] and [cosine]. *)
Lemma call_compute_sincos_ok (q : nco_crcq16_s iirfiltsos_rrrq16) :
  exists i s c,
    call_compute_sincos q16_sin q16_cos fptoui_undef q =
    Ok (set_sine_cosine (set_index q i) s c).
Proof.
  unfold call_compute_sincos. destruct (compute_sincos q).
  - rewrite compute_sincos_nco_ok. eauto.
  - unfold nco_crcq16_compute_sincos_vco.
    exists (index q), (q16_sin (theta q)), (q16_cos (theta q)).
    destruct q; reflexivity.
Qed.

(** Computing again in the state a computation left changes nothing. *)
Lemma call_compute_sincos_again (q q1 : nco_crcq16_s iirfiltsos_rrrq16) :
  call_compute_sincos q16_sin q16_cos fptoui_undef q = Ok q1 ->
  call_compute_sincos q16_sin q16_cos fptoui_undef q1 = Ok q1.
Proof.
  unfold call_compute_sincos. destruct (compute_sincos q) eqn:Hc.
  - rewrite compute_sincos_nco_ok. intros H. injection H as <-.
    cbn [compute_sincos set_sine_cosine set_index]. rewrite Hc.
    rewrite compute_sincos_nco_ok. reflexivity.
  - unfold nco_crcq16_compute_sincos_vco. intros H. injection H as <-.
    cbn [compute_sincos set_sine_cosine]. rewrite Hc. reflexivity.
Qed.

(** The index for the stored phases from -12 up (where the biased sum is
    above -1 and its conversion to [unsigned int] is defined): it is
    [u mod 256] for the integer [u] with
    [|u - 512 - theta * 40.743665| <= 0.53], the stored integer itself
    being multiplied by 40.743665.  The sine is the table entry at the
    index and the cosine the entry at [(index + 64) mod 256]; the phase is
    unchanged. *)
Lemma compute_sincos_nco_index (q : nco_crcq16_s iirfiltsos_rrrq16) :
  -12 <= theta q <= q16_max ->
  exists u q',
    nco_crcq16_compute_sincos_nco fptoui_undef q = Ok q' /\
    SFtrunc (sincos_nco_arg (theta q)) = Some u /\
    Z.abs (2000000 * (u - 512) - 2 * theta q * 40743665) <= 1060000 /\
    index q' = u mod 256 /\
    sine q' = nth (Z.to_nat (index q')) (sintab q) 0 /\
    cosine q' = nth (Z.to_nat ((index q' + 64) mod 256)) (sintab q) 0 /\
    theta q' = theta q.
Proof.
  intros Hth. pose proof (sincos_nco_arg_checked (theta q) Hth) as Hok.
  unfold sincos_nco_arg_ok in Hok.
  destruct (SFtrunc (sincos_nco_arg (theta q))) as [u |] eqn:Hu; [| discriminate].
  apply andb_true_iff in Hok. destruct Hok as [Hr Hd].
  exists u. eexists. split; [apply compute_sincos_nco_ok |].
  split; [reflexivity |]. split; [apply Z.leb_le; exact Hd |].
  cbn [index sine cosine theta set_sine_cosine set_index].
  unfold float_to_uint. rewrite Hu, Hr. rewrite !land_255_mod.
  repeat split; reflexivity.
Qed.

(** The biased, scaled value at the stored phases 1, 6434 and -13. *)
Lemma sincos_nco_arg_at_1 : SFtrunc (sincos_nco_arg 1) = Some 553.
Proof. reflexivity. Qed.

Lemma sincos_nco_arg_at_6434 : SFtrunc (sincos_nco_arg 6434) = Some 262657.
Proof. reflexivity. Qed.

Lemma sincos_nco_arg_at_minus_13 : SFtrunc (sincos_nco_arg (-13)) = Some (-17).
Proof. reflexivity. Qed.

Lemma compute_sincos_nco_at (q : nco_crcq16_s iirfiltsos_rrrq16) (th u i : Z) :
  SFtrunc (sincos_nco_arg th) = Some u -> 0 <= u < 2 ^ 32 ->
  Z.land u 255 = i ->
  nco_crcq16_compute_sincos_nco fptoui_undef (set_theta q th) =
  Ok (set_sine_cosine (set_index (set_theta q th) i)
        (nth (Z.to_nat i) (sintab q) 0)
        (nth (Z.to_nat (Z.land (i + 64) 255)) (sintab q) 0)).
Proof.
  intros Hu Hr Hi. rewrite compute_sincos_nco_ok. cbn [theta set_theta sintab].
  unfold float_to_uint. rewrite Hu.
  destruct (Z.leb_spec 0 u); [| lia]. destruct (Z.ltb_spec u (2 ^ 32)); [| lia].
  cbn [andb]. rewrite Hi. reflexivity.
Qed.

(** C2 at the stored phase 1.  The multiplication by 40.743665, which is
    256/(2 pi), is applied to the stored [q16_t] integer and not to the
    angle it stands for.  Whenever 2*pi is more than 512 units, the stored
    phase 1 is an angle below 1/512 of a turn, which the stated mapping
    sends to [0 + 128]; the code computes the index 41 (the table entry for
    one radian) and takes the sine from entry 41 and the cosine from entry
    105.  With 2*pi = 25736 the quarter turn is stored as 6434: the stated
    mapping gives [64 + 128], the code the index 1.  At the stored phase -13
    the value converted to [unsigned int] has the integral part -17, so the
    bias 512 does not keep it positive and the conversion is out of range. *)
Theorem compute_sincos_nco_scales_stored_integer
        (q : nco_crcq16_s iirfiltsos_rrrq16) (q16_2pi : Z) :
  512 < q16_2pi ->
  (exists q',
     nco_crcq16_compute_sincos_nco fptoui_undef (set_theta q 1) = Ok q' /\
     index q' = 41 /\
     sine q' = nth 41 (sintab q) 0 /\ cosine q' = nth 105 (sintab q) 0) /\
  claimed_nco_index q16_2pi 1 = 128 /\
  (exists q',
     nco_crcq16_compute_sincos_nco fptoui_undef (set_theta q 6434) = Ok q' /\
     index q' = 1 /\
     sine q' = nth 1 (sintab q) 0 /\ cosine q' = nth 65 (sintab q) 0) /\
  claimed_nco_index 25736 6434 = 192 /\
  SFtrunc (sincos_nco_arg (-13)) = Some (-17) /\
  float_to_uint fptoui_undef (sincos_nco_arg (-13)) =
  fptoui_undef (sincos_nco_arg (-13)).
Proof.
  intros H2pi.
  split.
  { eexists. split.
    - apply (compute_sincos_nco_at q 1 553 41 sincos_nco_arg_at_1); [lia | reflexivity].
    - cbn [index sine cosine set_sine_cosine set_index]. repeat split. }
  split.
  { unfold claimed_nco_index.
    replace ((2 * (1 * 256) + q16_2pi) / (2 * q16_2pi)) with 0; [reflexivity |].
    symmetry. apply Z.div_small. lia. }
  split.
  { eexists. split.
    - apply (compute_sincos_nco_at q 6434 262657 1 sincos_nco_arg_at_6434);
        [lia | reflexivity].
    - cbn [index sine cosine set_sine_cosine set_index]. repeat split. }
  split; [reflexivity |].
  split; [exact sincos_nco_arg_at_minus_13 |].
  unfold float_to_uint. rewrite sincos_nco_arg_at_minus_13. reflexivity.
Qed.

(** C10.  For every phase, constrained or not, and whatever the conversion
    to [unsigned int] yields, [nco_crcq16_compute_sincos_nco] returns (its
    assertion [index < 256] holds) and the index and the cosine index
    [(index + 64) & 0xff] lie inside the 256-entry table. *)
Theorem compute_sincos_nco_in_table (q : nco_crcq16_s iirfiltsos_rrrq16) :
  length (sintab q) = 256%nat ->
  exists q',
    nco_crcq16_compute_sincos_nco fptoui_undef q = Ok q' /\
    0 <= index q' < 256 /\
    (Z.to_nat (index q') < length (sintab q'))%nat /\
    (Z.to_nat (Z.land (index q' + 64) 255) < length (sintab q'))%nat.
Proof.
  intros Hlen. eexists. split; [apply compute_sincos_nco_ok |].
  cbn [index sintab set_sine_cosine set_index]. rewrite Hlen.
  pose proof (land_255_range (float_to_uint fptoui_undef (sincos_nco_arg (theta q)))) as H1.
  pose proof (land_255_range
                (Z.land (float_to_uint fptoui_undef (sincos_nco_arg (theta q))) 255 + 64)) as H2.
  repeat split; lia.
Qed.

(** ** Mixing *)

Lemma mix_up_ok (q q1 : nco_crcq16_s iirfiltsos_rrrq16) (x : cq16_t) :
  call_compute_sincos q16_sin q16_cos fptoui_undef q = Ok q1 ->
  nco_crcq16_mix_up q16_sin q16_cos cq16_mul fptoui_undef q x =
  Ok (q1, cq16_mul x (mk_cq16 (cosine q1) (sine q1))).
Proof. unfold nco_crcq16_mix_up. intros ->. reflexivity. Qed.

Lemma mix_down_ok (q q1 : nco_crcq16_s iirfiltsos_rrrq16) (x : cq16_t) :
  call_compute_sincos q16_sin q16_cos fptoui_undef q = Ok q1 ->
  nco_crcq16_mix_down q16_sin q16_cos cq16_mul fptoui_undef q x =
  Ok (q1, cq16_mul x (mk_cq16 (cosine q1) (wrap16 (- sine q1)))).
Proof. unfold nco_crcq16_mix_down. intros ->. reflexivity. Qed.

Lemma mix_block_up_fixed (q1 : nco_crcq16_s iirfiltsos_rrrq16) (xs : list cq16_t) :
  call_compute_sincos q16_sin q16_cos fptoui_undef q1 = Ok q1 ->
  nco_crcq16_mix_block_up q16_sin q16_cos cq16_mul fptoui_undef q1 xs =
  Ok (q1, map (fun x => cq16_mul x (mk_cq16 (cosine q1) (sine q1))) xs).
Proof.
  intros H1. induction xs as [| x xs IH]; [reflexivity |].
  cbn [nco_crcq16_mix_block_up map].
  rewrite (mix_up_ok q1 q1 x H1). cbn [bind]. rewrite IH. reflexivity.
Qed.

Lemma mix_block_down_fixed (q1 : nco_crcq16_s iirfiltsos_rrrq16) (xs : list cq16_t) :
  call_compute_sincos q16_sin q16_cos fptoui_undef q1 = Ok q1 ->
  nco_crcq16_mix_block_down q16_sin q16_cos cq16_mul fptoui_undef q1 xs =
  Ok (q1, map (fun x => cq16_mul x (mk_cq16 (cosine q1) (wrap16 (- sine q1)))) xs).
Proof.
  intros H1. induction xs as [| x xs IH]; [reflexivity |].
  cbn [nco_crcq16_mix_block_down map].
  rewrite (mix_down_ok q1 q1 x H1). cbn [bind]. rewrite IH. reflexivity.
Qed.

Lemma Forall2_map_r {A B : Type} (R : A -> B -> Prop) (f : A -> B) (l : list A) :
  (forall x, R x (f x)) -> Forall2 R l (map f l).
Proof. intros H. induction l; simpl; constructor; auto. Qed.

(** C7.  [nco_crcq16_mix_block_up] and [nco_crcq16_mix_block_down] return an
    output of the length of the input whose every element is what the
    single-sample [nco_crcq16_mix_up] ([nco_crcq16_mix_down]) returns for the
    input element in the oscillator's state at the call, the same angle for
    every element; phase and frequency are those at the call. *)
Theorem mix_block_elementwise (q : nco_crcq16_s iirfiltsos_rrrq16) (xs : list cq16_t) :
  (exists q' ys,
     nco_crcq16_mix_block_up q16_sin q16_cos cq16_mul fptoui_undef q xs = Ok (q', ys) /\
     length ys = length xs /\
     Forall2 (fun x y => exists q1,
                nco_crcq16_mix_up q16_sin q16_cos cq16_mul fptoui_undef q x = Ok (q1, y))
             xs ys /\
     theta q' = theta q /\ d_theta q' = d_theta q) /\
  (exists q' ys,
     nco_crcq16_mix_block_down q16_sin q16_cos cq16_mul fptoui_undef q xs = Ok (q', ys) /\
     length ys = length xs /\
     Forall2 (fun x y => exists q1,
                nco_crcq16_mix_down q16_sin q16_cos cq16_mul fptoui_undef q x = Ok (q1, y))
             xs ys /\
     theta q' = theta q /\ d_theta q' = d_theta q).
Proof.
  destruct (call_compute_sincos_ok q) as (i & s & c & Hq).
  set (q1 := set_sine_cosine (set_index q i) s c) in *.
  pose proof (call_compute_sincos_again q q1 Hq) as Hq1.
  split.
  - destruct xs as [| x xs].
    + exists q, []. repeat split; constructor.
    + exists q1, (map (fun x => cq16_mul x (mk_cq16 (cosine q1) (sine q1))) (x :: xs)).
      split.
      * cbn [nco_crcq16_mix_block_up map]. rewrite (mix_up_ok q q1 x Hq). cbn [bind].
        rewrite (mix_block_up_fixed q1 xs Hq1). reflexivity.
      * split; [apply length_map |]. split; [| split; reflexivity].
        apply Forall2_map_r. intros y. exists q1. apply mix_up_ok. exact Hq.
  - destruct xs as [| x xs].
    + exists q, []. repeat split; constructor.
    + exists q1, (map (fun x => cq16_mul x (mk_cq16 (cosine q1) (wrap16 (- sine q1)))) (x :: xs)).
      split.
      * cbn [nco_crcq16_mix_block_down map]. rewrite (mix_down_ok q q1 x Hq). cbn [bind].
        rewrite (mix_block_down_fixed q1 xs Hq1). reflexivity.
      * split; [apply length_map |]. split; [| split; reflexivity].
        apply Forall2_map_r. intros y. exists q1. apply mix_down_ok. exact Hq.
Qed.

End NcoSincos.

(** ** Phase-locked loop *)

Section NcoPll.

Variable iirfiltsos_rrrq16 : Type.
Variable iirfiltsos_rrrq16_set_coefficients :
  iirfiltsos_rrrq16 -> Z * Z * Z -> Z * Z * Z -> iirfiltsos_rrrq16.
Variable iirfiltsos_rrrq16_execute_df1 :
  iirfiltsos_rrrq16 -> Z -> iirfiltsos_rrrq16 * Z.
Variable fptosi_undef : spec_float -> Z.

Lemma float_to_q16_in_range (x : spec_float) (z : Z) :
  SFtrunc x = Some z -> in_q16b z = true -> float_to_q16 fptosi_undef x = z.
Proof. unfold float_to_q16. intros -> ->. reflexivity. Qed.

(** The state [nco_crcq16_pll_set_bandwidth] returns for a bandwidth from 0
    up. *)
Lemma pll_set_bandwidth_nonneg (q : nco_crcq16_s iirfiltsos_rrrq16) (_b : Z) :
  0 <= _b <= q16_max ->
  nco_crcq16_pll_set_bandwidth iirfiltsos_rrrq16_set_coefficients fptosi_undef q _b =
  Ok (set_pll q _b (float_to_q16 fptosi_undef pll_zeta)
        (pll_coefficients_b fptosi_undef _b) (pll_coefficients_a fptosi_undef _b)
        (iirfiltsos_rrrq16_set_coefficients (pll_filter q)
           (pll_coefficients_b fptosi_undef _b)
           (pll_coefficients_a fptosi_undef _b))).
Proof.
  intros Hb. unfold nco_crcq16_pll_set_bandwidth.
  rewrite (f32_of_Z_ltb_zero _b) by (unfold in_q16, q16_min, q16_max in *; lia).
  destruct (Z.ltb_spec _b 0); [lia | reflexivity].
Qed.

(** C4.  [nco_crcq16_pll_set_bandwidth] terminates the process with its
    diagnostic exactly when the bandwidth is negative.  For every bandwidth
    from 0 up it returns, stores the bandwidth as given, stores the
    recomputed coefficient arrays and passes them to the filter; phase and
    frequency are untouched. *)
Theorem pll_set_bandwidth_outcome (q : nco_crcq16_s iirfiltsos_rrrq16) (_b : Z) :
  in_q16 _b ->
  is_exit (nco_crcq16_pll_set_bandwidth iirfiltsos_rrrq16_set_coefficients
             fptosi_undef q _b) = (_b <? 0) /\
  (_b < 0 ->
   nco_crcq16_pll_set_bandwidth iirfiltsos_rrrq16_set_coefficients fptosi_undef q _b =
   Exit "error: nco_pll_set_bandwidth(), bandwidth must be positive") /\
  (0 <= _b ->
   exists q',
     nco_crcq16_pll_set_bandwidth iirfiltsos_rrrq16_set_coefficients fptosi_undef q _b =
     Ok q' /\
     bandwidth q' = _b /\
     b q' = pll_coefficients_b fptosi_undef _b /\
     a q' = pll_coefficients_a fptosi_undef _b /\
     pll_filter q' = iirfiltsos_rrrq16_set_coefficients (pll_filter q) (b q') (a q') /\
     theta q' = theta q /\ d_theta q' = d_theta q).
Proof.
  intros Hb. unfold nco_crcq16_pll_set_bandwidth.
  rewrite (f32_of_Z_ltb_zero _b Hb).
  destruct (Z.ltb_spec _b 0) as [Hneg | Hpos].
  - split; [reflexivity |]. split; [intros _; reflexivity | lia].
  - split; [reflexivity |]. split; [lia |].
    intros _. eexists. split; [reflexivity |].
    cbn [bandwidth b a pll_filter theta d_theta set_pll]. repeat split.
Qed.

(** For every bandwidth [_b] from 1 up, the coefficients stored and passed
    to the filter are the values of the loop-filter formulas, with [wn] the
    stored integer [_b], truncated toward zero to integers by their
    assignment to [q16_t] objects: [b0 = 1999 + k], [b1 = 4000],
    [b2 = 2000 - k] where [k] is the integral part of [1000 * sqrt 2 / _b],
    [a0] the integral part of [1 + 500 / _b^2], [a1] the integral part of
    [-1 + 500 / _b^2], and [a2 = 0]. *)
Theorem pll_set_bandwidth_coefficients (q : nco_crcq16_s iirfiltsos_rrrq16) (_b : Z) :
  1 <= _b <= q16_max ->
  exists k q',
    nco_crcq16_pll_set_bandwidth iirfiltsos_rrrq16_set_coefficients fptosi_undef q _b =
    Ok q' /\
    0 <= k /\ k * k * (_b * _b) <= 2000000 < (k + 1) * (k + 1) * (_b * _b) /\
    b q' = (1999 + k, 4000, 2000 - k) /\
    a q' = (1 + 500 / (_b * _b), Z.quot (500 - _b * _b) (_b * _b), 0) /\
    pll_filter q' = iirfiltsos_rrrq16_set_coefficients (pll_filter q) (b q') (a q').
Proof.
  intros Hb.
  pose proof (pll_set_bandwidth_nonneg q _b ltac:(lia)) as Hset.
  set (q' := set_pll q _b _ _ _ _) in Hset.
  assert (Hbs : b q' = pll_coefficients_b fptosi_undef _b) by reflexivity.
  assert (Has : a q' = pll_coefficients_a fptosi_undef _b) by reflexivity.
  assert (Hf : pll_filter q' =
               iirfiltsos_rrrq16_set_coefficients (pll_filter q) (b q') (a q'))
    by reflexivity.
  clearbody q'.
  pose proof (pll_coefficients_checked _b Hb) as Hc.
  unfold pll_coefficients_ok in Hc.
  destruct (SFtrunc (pll_b0 _b)) as [b0 |] eqn:E0; [| discriminate].
  destruct (SFtrunc pll_b1) as [b1 |] eqn:E1; [| discriminate].
  destruct (SFtrunc (pll_b2 _b)) as [b2 |] eqn:E2; [| discriminate].
  destruct (SFtrunc (pll_a0 _b)) as [a0 |] eqn:E3; [| discriminate].
  destruct (SFtrunc (pll_a1 _b)) as [a1 |] eqn:E4; [| discriminate].
  repeat (apply andb_true_iff in Hc; destruct Hc as [Hc ?]).
  assert (Hb0 : in_q16b b0 = true)
    by (unfold in_q16b; apply andb_true_iff; split; assumption).
  exists (b0 - 1999), q'. split; [exact Hset |].
  split; [lia |]. split; [lia |].
  rewrite Hf, Hbs, Has. unfold pll_coefficients_b, pll_coefficients_a.
  rewrite (float_to_q16_in_range _ _ E0), (float_to_q16_in_range _ _ E1),
    (float_to_q16_in_range _ _ E2), (float_to_q16_in_range _ _ E3),
    (float_to_q16_in_range _ _ E4) by assumption.
  rewrite (float_to_q16_in_range f32_zero 0) by reflexivity.
  repeat match goal with
         | E : (_ =? _) = true |- _ => apply Z.eqb_eq in E
         end.
  subst. split; [repeat f_equal; lia |].
  split; reflexivity.
Qed.

(** C5.  [nco_crcq16_pll_step] runs the phase error through the filter and
    adds the filtered value to the frequency with [q16_t] addition (the
    exact sum whenever it is a [q16_t] value); the result is stored as it
    is, with no constraint to [-pi, pi], and the phase is unchanged. *)
Theorem pll_step_adjusts_frequency (q : nco_crcq16_s iirfiltsos_rrrq16) (_dphi : Z) :
  let f := fst (iirfiltsos_rrrq16_execute_df1 (pll_filter q) _dphi) in
  let error_filtered := snd (iirfiltsos_rrrq16_execute_df1 (pll_filter q) _dphi) in
  let q' := nco_crcq16_pll_step iirfiltsos_rrrq16_execute_df1 q _dphi in
  q' = set_d_theta (set_pll_filter q f) (wrap16 (d_theta q + error_filtered)) /\
  d_theta q' = wrap16 (d_theta q + error_filtered) /\
  (in_q16 (d_theta q + error_filtered) -> d_theta q' = d_theta q + error_filtered) /\
  theta q' = theta q /\
  pll_filter q' = f.
Proof.
  cbv zeta. unfold nco_crcq16_pll_step, nco_crcq16_adjust_frequency.
  destruct (iirfiltsos_rrrq16_execute_df1 (pll_filter q) _dphi) as [f y].
  cbn [fst snd d_theta theta pll_filter set_d_theta set_pll_filter].
  repeat split. intros H. apply wrap16_small. exact H.
Qed.

End NcoPll.

(** ** Short-sequence generator *)

Section OfdmframeS0.

Variable OFDMFRAME_SCTYPE_NULL : Z.
Variable liquid_nextpow2 : Z -> Z.
Variable msequence : Type.
Variable msequence_create_default : Z -> msequence.
Variable msequence_generate_symbol : msequence -> Z -> msequence * Z.
Variable fft_run_reverse : Z -> list float_complex -> list float_complex.

(** The loop from index [k] on: the counter grows by the number of even
    indices with a non-null tag, and the symbol written at an index is +1 or
    -1 at those and 0 at the others. *)
Lemma init_S0_loop_spec (_p : list Z) :
  forall (k : nat) (ms : msequence) (c : Z),
  0 <= c -> c + Z.of_nat (length _p) < 2 ^ 32 ->
  let pat := map (fun it => Z.even (fst it) && negb (snd it =? OFDMFRAME_SCTYPE_NULL))
                 (combine (map Z.of_nat (seq k (length _p))) _p) in
  let r := init_S0_loop OFDMFRAME_SCTYPE_NULL msequence_generate_symbol
             _p (Z.of_nat k) ms c in
  fst r = c + Z.of_nat (length (filter (fun on => on) pat)) /\
  map fc_is_unit (snd r) = pat /\
  map fc_is_zero (snd r) = map negb pat.
Proof.
  induction _p as [| t rest IH]; intros k ms c Hc Hlen; cbv zeta.
  - simpl. repeat split. lia.
  - cbn [length seq map combine init_S0_loop fst snd].
    cbn [length] in Hlen. rewrite Nat2Z.inj_succ in Hlen.
    destruct (msequence_generate_symbol ms 3) as [ms1 sym].
    replace (Z.of_nat k + 1) with (Z.of_nat (S k)) by lia.
    assert (Hev : (Z.of_nat k mod 2 =? 0) = Z.even (Z.of_nat k)).
    { rewrite Zmod_even. destruct (Z.even (Z.of_nat k)); reflexivity. }
    rewrite Hev.
    destruct (t =? OFDMFRAME_SCTYPE_NULL) eqn:Ht.
    + rewrite andb_false_r. cbn [negb filter].
      specialize (IH (S k) ms1 c Hc ltac:(lia)). cbv zeta in IH.
      destruct (init_S0_loop OFDMFRAME_SCTYPE_NULL msequence_generate_symbol
                  rest (Z.of_nat (S k)) ms1 c) as [n out].
      cbn [fst snd map] in *. destruct IH as (-> & -> & ->).
      repeat split.
    + rewrite andb_true_r. cbn [negb].
      destruct (Z.even (Z.of_nat k)) eqn:Hk.
      * assert (Hinc : uint_incr c = c + 1).
        { unfold uint_incr. apply Z.mod_small. lia. }
        rewrite Hinc.
        specialize (IH (S k) ms1 (c + 1) ltac:(lia) ltac:(lia)). cbv zeta in IH.
        destruct (init_S0_loop OFDMFRAME_SCTYPE_NULL msequence_generate_symbol
                    rest (Z.of_nat (S k)) ms1 (c + 1)) as [n out].
        cbn [fst snd map filter length] in *. destruct IH as (-> & -> & ->).
        split; [lia |].
        destruct (Z.land sym 1 =? 0); split; reflexivity.
      * specialize (IH (S k) ms1 c Hc ltac:(lia)). cbv zeta in IH.
        destruct (init_S0_loop OFDMFRAME_SCTYPE_NULL msequence_generate_symbol
                    rest (Z.of_nat (S k)) ms1 c) as [n out].
        cbn [fst snd map filter] in *. destruct IH as (-> & -> & ->).
        repeat split.
Qed.

(** With no null tag the subcarriers to enable are the even indices. *)
Lemma S0_active_no_null (_p : list Z) :
  Forall (fun t => t <> OFDMFRAME_SCTYPE_NULL) _p ->
  forall k,
  map (fun it => Z.even (fst it) && negb (snd it =? OFDMFRAME_SCTYPE_NULL))
      (combine (map Z.of_nat (seq k (length _p))) _p) =
  map Z.even (map Z.of_nat (seq k (length _p))).
Proof.
  induction 1 as [| t rest Ht _ IH]; intros k; [reflexivity |].
  cbn [length seq map combine fst snd]. rewrite IH.
  apply Z.eqb_neq in Ht. rewrite Ht, andb_true_r. reflexivity.
Qed.

(** With only null tags there is nothing to enable. *)
Lemma S0_active_all_null (_p : list Z) :
  Forall (fun t => t = OFDMFRAME_SCTYPE_NULL) _p ->
  forall k,
  filter (fun on => on)
    (map (fun it => Z.even (fst it) && negb (snd it =? OFDMFRAME_SCTYPE_NULL))
         (combine (map Z.of_nat (seq k (length _p))) _p)) = [].
Proof.
  induction 1 as [| t rest Ht _ IH]; intros k; [reflexivity |].
  cbn [length seq map combine fst snd filter]. subst t.
  rewrite Z.eqb_refl, andb_false_r. apply IH.
Qed.

(** What [ofdmframe_init_S0] returns, by the number of subcarriers to
    enable. *)
Lemma init_S0_run_spec (_p : list Z) :
  Z.of_nat (length _p) < 2 ^ 32 ->
  let run := ofdmframe_init_S0 OFDMFRAME_SCTYPE_NULL liquid_nextpow2
               msequence_create_default msequence_generate_symbol
               fft_run_reverse _p in
  (S0_active_count OFDMFRAME_SCTYPE_NULL _p = 0 ->
   run = Exit "error: ofdmframe_init_S0(), no subcarriers enabled; check allocation") /\
  (S0_active_count OFDMFRAME_SCTYPE_NULL _p <> 0 ->
   exists _S0 _s0,
     run = Ok (_S0, _s0, S0_active_count OFDMFRAME_SCTYPE_NULL _p)).
Proof.
  intros Hlen. cbv zeta. unfold ofdmframe_init_S0.
  set (ms := msequence_create_default _).
  pose proof (init_S0_loop_spec _p 0 ms 0 ltac:(lia) ltac:(lia)) as H.
  cbv zeta in H. change (Z.of_nat 0) with 0 in H.
  destruct (init_S0_loop OFDMFRAME_SCTYPE_NULL msequence_generate_symbol _p 0 ms 0)
    as [n out].
  cbn [fst snd] in H. destruct H as (Hn & _ & _).
  fold (subcarrier_indices _p) in Hn.
  fold (S0_active OFDMFRAME_SCTYPE_NULL _p) in Hn.
  fold (S0_active_count OFDMFRAME_SCTYPE_NULL _p) in Hn.
  rewrite Z.add_0_l in Hn. subst n. split.
  - intros ->. reflexivity.
  - intros Hne. apply Z.eqb_neq in Hne. rewrite Hne.
    eexists. eexists. reflexivity.
Qed.

(** C9.  [ofdmframe_init_S0] enables exactly the subcarriers of even index
    whose tag is not null (symbol +1 or -1 there, 0 elsewhere) and returns
    their number in [*_M_S0]; when that number is 0, as for an allocation of
    null tags only, it terminates the process with its diagnostic and
    returns nothing.  For 64 subcarriers none of which is null the number
    is 32. *)
Theorem init_S0_active_count (_p : list Z) :
  Z.of_nat (length _p) < 2 ^ 32 ->
  let run := ofdmframe_init_S0 OFDMFRAME_SCTYPE_NULL liquid_nextpow2
               msequence_create_default msequence_generate_symbol
               fft_run_reverse _p in
  (S0_active_count OFDMFRAME_SCTYPE_NULL _p = 0 ->
   run = Exit "error: ofdmframe_init_S0(), no subcarriers enabled; check allocation") /\
  (S0_active_count OFDMFRAME_SCTYPE_NULL _p <> 0 ->
   exists _S0 _s0,
     run = Ok (_S0, _s0, S0_active_count OFDMFRAME_SCTYPE_NULL _p) /\
     map fc_is_unit _S0 = S0_active OFDMFRAME_SCTYPE_NULL _p /\
     map fc_is_zero _S0 = map negb (S0_active OFDMFRAME_SCTYPE_NULL _p)) /\
  (Forall (fun t => t = OFDMFRAME_SCTYPE_NULL) _p ->
   S0_active_count OFDMFRAME_SCTYPE_NULL _p = 0) /\
  (length _p = 64%nat -> Forall (fun t => t <> OFDMFRAME_SCTYPE_NULL) _p ->
   S0_active_count OFDMFRAME_SCTYPE_NULL _p = 32).
Proof.
  intros Hlen. cbv zeta. unfold ofdmframe_init_S0.
  set (ms := msequence_create_default _).
  pose proof (init_S0_loop_spec _p 0 ms 0 ltac:(lia) ltac:(lia)) as H.
  cbv zeta in H. change (Z.of_nat 0) with 0 in H.
  destruct (init_S0_loop OFDMFRAME_SCTYPE_NULL msequence_generate_symbol _p 0 ms 0)
    as [n out].
  cbn [fst snd] in H. destruct H as (Hn & Hu & Hz).
  fold (subcarrier_indices _p) in Hn, Hu, Hz.
  fold (S0_active OFDMFRAME_SCTYPE_NULL _p) in Hn, Hu, Hz.
  fold (S0_active_count OFDMFRAME_SCTYPE_NULL _p) in Hn.
  rewrite Z.add_0_l in Hn. subst n.
  split; [| split; [| split]].
  - intros ->. reflexivity.
  - intros Hne. apply Z.eqb_neq in Hne. rewrite Hne.
    eexists. eexists. split; [reflexivity |]. split; assumption.
  - intros Hnull. unfold S0_active_count, S0_active, subcarrier_indices.
    rewrite (S0_active_all_null _p Hnull 0). reflexivity.
  - intros H64 Hdata. unfold S0_active_count, S0_active, subcarrier_indices.
    rewrite (S0_active_no_null _p Hdata 0), H64. reflexivity.
Qed.

End OfdmframeS0.

(** ** Further properties of the oscillator *)

Lemma wrap16_add_l (x y : Z) : wrap16 (wrap16 x + y) = wrap16 (x + y).
Proof.
  unfold wrap16. f_equal.
  replace ((x + 32768) mod 65536 - 32768 + y + 32768)
    with ((x + 32768) mod 65536 + y) by lia.
  rewrite Z.add_mod_idemp_l by lia. f_equal. lia.
Qed.

Section NcoMore.

Variables q16_pi q16_2pi q16_one : Z.
Variable q16_sintab_entry : Z -> Z.
Variables q16_sin q16_cos : Z -> Z.
Variable cq16_mul : cq16_t -> cq16_t -> cq16_t.
Variable iirfiltsos_rrrq16 : Type.
Variable iirfiltsos_rrrq16_create : Z * Z * Z -> Z * Z * Z -> iirfiltsos_rrrq16.
Variable iirfiltsos_rrrq16_set_coefficients :
  iirfiltsos_rrrq16 -> Z * Z * Z -> Z * Z * Z -> iirfiltsos_rrrq16.
Variable iirfiltsos_rrrq16_execute_df1 :
  iirfiltsos_rrrq16 -> Z -> iirfiltsos_rrrq16 * Z.
Variable iirfiltsos_rrrq16_clear : iirfiltsos_rrrq16 -> iirfiltsos_rrrq16.
Variable fptoui_undef : spec_float -> Z.
Variable fptosi_undef : spec_float -> Z.

(** The default bandwidth 0.1 converted to [q16_t] is 0, and at the
    bandwidth 0 the loop-filter formulas give infinities. *)
Lemma default_bandwidth_q16 :
  float_to_q16 fptosi_undef NCO_PLL_BANDWIDTH_DEFAULT = 0.
Proof. reflexivity. Qed.

Lemma pll_coefficients_b_at_0 :
  pll_coefficients_b fptosi_undef 0 =
  (wrap16 (fptosi_undef (S754_infinity false)), 4000,
   wrap16 (fptosi_undef (S754_infinity true))).
Proof. reflexivity. Qed.

Lemma pll_coefficients_a_at_0 :
  pll_coefficients_a fptosi_undef 0 =
  (wrap16 (fptosi_undef (S754_infinity false)),
   wrap16 (fptosi_undef (S754_infinity false)), 0).
Proof. reflexivity. Qed.

Lemma pll_zeta_q16 : float_to_q16 fptosi_undef pll_zeta = 0.
Proof. reflexivity. Qed.

(** [nco_crcq16_pll_set_bandwidth] at the default bandwidth. *)
Lemma pll_set_bandwidth_default (q : nco_crcq16_s iirfiltsos_rrrq16) :
  let inf := wrap16 (fptosi_undef (S754_infinity false)) in
  let minf := wrap16 (fptosi_undef (S754_infinity true)) in
  nco_crcq16_pll_set_bandwidth iirfiltsos_rrrq16_set_coefficients fptosi_undef q
    (float_to_q16 fptosi_undef NCO_PLL_BANDWIDTH_DEFAULT) =
  Ok (set_pll q 0 0 (inf, 4000, minf) (inf, inf, 0)
        (iirfiltsos_rrrq16_set_coefficients (pll_filter q)
           (inf, 4000, minf) (inf, inf, 0))).
Proof.
  cbv zeta. rewrite default_bandwidth_q16. unfold nco_crcq16_pll_set_bandwidth.
  rewrite (f32_of_Z_ltb_zero 0) by (unfold in_q16, q16_min, q16_max; lia).
  rewrite pll_coefficients_b_at_0, pll_coefficients_a_at_0, pll_zeta_q16.
  reflexivity.
Qed.

(** What [nco_crcq16_create] returns, field by field. *)
Lemma create_result (_type : liquid_ncotype) :
  let inf := wrap16 (fptosi_undef (S754_infinity false)) in
  let minf := wrap16 (fptosi_undef (S754_infinity true)) in
  nco_crcq16_create q16_one q16_sintab_entry iirfiltsos_rrrq16_create
    iirfiltsos_rrrq16_set_coefficients iirfiltsos_rrrq16_clear
    fptosi_undef _type =
  match _type with
  | LIQUID_NCOTYPE_OTHER v =>
      Exit ("error: nco_crcq16_create(), unknown type : " ++ printf_u v)
  | _ =>
      Ok (mk_nco _type 0 0 (map q16_sintab_entry (map Z.of_nat (seq 0 256)))
            0 0 1
            match _type with LIQUID_NCO => sincos_nco | _ => sincos_vco end
            0 0 (inf, inf, 0) (inf, 4000, minf)
            (iirfiltsos_rrrq16_set_coefficients
               (iirfiltsos_rrrq16_clear
                  (iirfiltsos_rrrq16_create (0, 0, 0) (q16_one, 0, 0)))
               (inf, 4000, minf) (inf, inf, 0)))
  end.
Proof.
  cbv zeta. unfold nco_crcq16_create. rewrite pll_set_bandwidth_default.
  unfold bind. destruct _type; reflexivity.
Qed.

(** [nco_crcq16_create] terminates the process exactly for a type that is
    neither NCO nor VCO.  Otherwise the oscillator starts at phase 0 and
    frequency 0 with a table of 256 entries and the sine/cosine function of
    its type.  The default bandwidth 0.1 reaches
    [nco_crcq16_pll_set_bandwidth] converted to the [q16_t] value 0, so the
    stored bandwidth is 0, the loop-filter formulas divide by zero, and the
    coefficients handed to the filter are conversions of infinities, except
    [b1 = 4000] and [a2 = 0]. *)
Theorem create_outcome (_type : liquid_ncotype) :
  let run := nco_crcq16_create q16_one q16_sintab_entry iirfiltsos_rrrq16_create
               iirfiltsos_rrrq16_set_coefficients iirfiltsos_rrrq16_clear
               fptosi_undef _type in
  let inf := wrap16 (fptosi_undef (S754_infinity false)) in
  let minf := wrap16 (fptosi_undef (S754_infinity true)) in
  match _type with
  | LIQUID_NCOTYPE_OTHER v =>
      run = Exit ("error: nco_crcq16_create(), unknown type : " ++ printf_u v)
  | _ =>
      exists q,
        run = Ok q /\ type q = _type /\
        theta q = 0 /\ d_theta q = 0 /\
        sintab q = map q16_sintab_entry (map Z.of_nat (seq 0 256)) /\
        length (sintab q) = 256%nat /\
        compute_sincos q =
          match _type with LIQUID_NCO => sincos_nco | _ => sincos_vco end /\
        bandwidth q = 0 /\
        b q = (inf, 4000, minf) /\ a q = (inf, inf, 0) /\
        pll_filter q =
          iirfiltsos_rrrq16_set_coefficients
            (iirfiltsos_rrrq16_clear
               (iirfiltsos_rrrq16_create (0, 0, 0) (q16_one, 0, 0)))
            (b q) (a q)
  end.
Proof.
  cbv zeta. rewrite create_result. cbv zeta. destruct _type.
  - eexists. split; [reflexivity |]. repeat split.
  - eexists. split; [reflexivity |]. repeat split.
  - reflexivity.
Qed.

(** The first sine and cosine of a new oscillator, at phase 0: in NCO mode
    entries 0 and 64 of the table (the sine of 0 and of a quarter period),
    in VCO mode [q16_sin 0] and [q16_cos 0]. *)
Theorem create_then_sincos (_type : liquid_ncotype) (q : nco_crcq16_s iirfiltsos_rrrq16) :
  nco_crcq16_create q16_one q16_sintab_entry iirfiltsos_rrrq16_create
    iirfiltsos_rrrq16_set_coefficients iirfiltsos_rrrq16_clear
    fptosi_undef _type = Ok q ->
  exists q1,
    nco_crcq16_sincos q16_sin q16_cos fptoui_undef q =
    Ok (q1, match _type with
            | LIQUID_NCO => (q16_sintab_entry 0, q16_sintab_entry 64)
            | _ => (q16_sin 0, q16_cos 0)
            end).
Proof.
  rewrite create_result. cbv zeta. destruct _type; intros Hc.
  - injection Hc as <-.
    unfold nco_crcq16_sincos, call_compute_sincos. cbn [compute_sincos].
    rewrite compute_sincos_nco_ok. cbn [bind sine cosine set_sine_cosine theta sintab].
    change (float_to_uint fptoui_undef (sincos_nco_arg 0)) with 512.
    eexists. reflexivity.
  - injection Hc as <-.
    unfold nco_crcq16_sincos, call_compute_sincos. cbn [compute_sincos].
    unfold nco_crcq16_compute_sincos_vco. cbn [bind sine cosine set_sine_cosine theta].
    eexists. reflexivity.
  - discriminate.
Qed.

(** After [nco_crcq16_reset] the frequency is 0 and the phase is 0, and any
    number of steps leaves them there. *)
Theorem reset_then_steps (q : nco_crcq16_s iirfiltsos_rrrq16) (n : nat) :
  0 <= q16_pi ->
  let q' := Nat.iter n (nco_crcq16_step q16_pi q16_2pi)
              (nco_crcq16_reset iirfiltsos_rrrq16_clear q) in
  theta q' = 0 /\ d_theta q' = 0 /\
  sintab q' = sintab q /\ bandwidth q' = bandwidth q /\
  pll_filter q' = iirfiltsos_rrrq16_clear (pll_filter q).
Proof.
  intros Hpi. cbv zeta. induction n as [| n IH].
  - repeat split.
  - rewrite Nat.iter_succ.
    set (qn := Nat.iter n _ _) in *.
    destruct IH as (Hth & Hf & Ht & Hb & Hp).
    unfold nco_crcq16_step, nco_crcq16_constrain_phase.
    cbn [theta set_theta]. rewrite Hth, Hf. change (wrap16 (0 + 0)) with 0.
    destruct (Z.ltb_spec q16_pi 0); [lia |].
    destruct (Z.ltb_spec 0 (- q16_pi)); [lia |].
    cbn [theta d_theta sintab bandwidth pll_filter set_theta]. auto.
Qed.

(** Two frequency adjustments add up, modulo 2^16; an adjustment followed by
    its opposite restores the frequency even when the sum in between wraps. *)
Theorem adjust_frequency_twice (q : nco_crcq16_s iirfiltsos_rrrq16) (df1 df2 : Z) :
  d_theta (nco_crcq16_adjust_frequency (nco_crcq16_adjust_frequency q df1) df2)
  = wrap16 (d_theta q + df1 + df2) /\
  (in_q16 (d_theta q) ->
   d_theta (nco_crcq16_adjust_frequency (nco_crcq16_adjust_frequency q df1) (- df1))
   = d_theta q).
Proof.
  unfold nco_crcq16_adjust_frequency. cbn [d_theta set_d_theta].
  split; [apply wrap16_add_l |].
  intros H. rewrite wrap16_add_l.
  replace (d_theta q + df1 + - df1) with (d_theta q) by lia.
  apply wrap16_small. exact H.
Qed.

(** [nco_crcq16_sincos] always returns, and [nco_crcq16_sin],
    [nco_crcq16_cos] and [nco_crcq16_cexpf] return its values and leave the
    same state; a second call in that state returns the same again; phase
    and frequency are not changed. *)
Theorem sincos_consistent (q : nco_crcq16_s iirfiltsos_rrrq16) :
  exists q1 s c,
    nco_crcq16_sincos q16_sin q16_cos fptoui_undef q = Ok (q1, (s, c)) /\
    nco_crcq16_sin q16_sin q16_cos fptoui_undef q = Ok (q1, s) /\
    nco_crcq16_cos q16_sin q16_cos fptoui_undef q = Ok (q1, c) /\
    nco_crcq16_cexpf q16_sin q16_cos fptoui_undef q = Ok (q1, mk_cq16 c s) /\
    nco_crcq16_sincos q16_sin q16_cos fptoui_undef q1 = Ok (q1, (s, c)) /\
    theta q1 = theta q /\ d_theta q1 = d_theta q.
Proof.
  destruct (call_compute_sincos_ok q16_sin q16_cos _ fptoui_undef q) as (i & s & c & Hq).
  pose proof (call_compute_sincos_again _ _ _ _ _ _ Hq) as Hq1.
  exists (set_sine_cosine (set_index q i) s c), s, c.
  unfold nco_crcq16_sincos, nco_crcq16_sin, nco_crcq16_cos, nco_crcq16_cexpf.
  rewrite Hq, Hq1. repeat split.
Qed.

(** [nco_crcq16_mix_up] multiplies the sample by (cosine, sine) and
    [nco_crcq16_mix_down] by the conjugate (cosine, -sine), with the sine and
    cosine [nco_crcq16_sincos] returns; neither changes phase or frequency,
    and mixing down the output of mixing up multiplies by the one and then
    by the other. *)
Theorem mix_up_down_rotation (q : nco_crcq16_s iirfiltsos_rrrq16) (x : cq16_t) :
  exists q1 s c,
    nco_crcq16_sincos q16_sin q16_cos fptoui_undef q = Ok (q1, (s, c)) /\
    nco_crcq16_mix_up q16_sin q16_cos cq16_mul fptoui_undef q x =
      Ok (q1, cq16_mul x (mk_cq16 c s)) /\
    nco_crcq16_mix_down q16_sin q16_cos cq16_mul fptoui_undef q x =
      Ok (q1, cq16_mul x (mk_cq16 c (wrap16 (- s)))) /\
    nco_crcq16_mix_down q16_sin q16_cos cq16_mul fptoui_undef q1
      (cq16_mul x (mk_cq16 c s)) =
      Ok (q1, cq16_mul (cq16_mul x (mk_cq16 c s)) (mk_cq16 c (wrap16 (- s)))) /\
    (in_q16 s -> s <> q16_min -> wrap16 (- s) = - s) /\
    theta q1 = theta q /\ d_theta q1 = d_theta q.
Proof.
  destruct (call_compute_sincos_ok q16_sin q16_cos _ fptoui_undef q) as (i & s & c & Hq).
  pose proof (call_compute_sincos_again _ _ _ _ _ _ Hq) as Hq1.
  exists (set_sine_cosine (set_index q i) s c), s, c.
  unfold nco_crcq16_sincos, nco_crcq16_mix_up, nco_crcq16_mix_down.
  rewrite Hq, Hq1. repeat split.
  intros Hs Hne. apply wrap16_small.
  unfold in_q16, q16_min, q16_max in *. lia.
Qed.

(** When pi + 2*pi reaches 32768, every [q16_t] value is within one
    correction of [-pi, pi]: after [nco_crcq16_adjust_phase] and
    [nco_crcq16_step] in any state, and after [nco_crcq16_set_phase] of any
    [q16_t] value, the phase lies in [-pi, pi]. *)
Theorem phase_constrained_always (q : nco_crcq16_s iirfiltsos_rrrq16) :
  q16_angles_ok q16_pi q16_2pi -> 32768 <= q16_pi + q16_2pi ->
  (forall phi, in_q16 phi ->
     - q16_pi <= theta (nco_crcq16_set_phase q16_pi q16_2pi q phi) <= q16_pi) /\
  (forall dphi,
     - q16_pi <= theta (nco_crcq16_adjust_phase q16_pi q16_2pi q dphi) <= q16_pi) /\
  - q16_pi <= theta (nco_crcq16_step q16_pi q16_2pi q) <= q16_pi.
Proof.
  intros (Hpi & Hlt & Hle & Hmax) Hsum.
  assert (H : forall (q0 : nco_crcq16_s iirfiltsos_rrrq16), in_q16 (theta q0) ->
              - q16_pi <= theta (nco_crcq16_constrain_phase q16_pi q16_2pi q0) <= q16_pi).
  { intros q0 Hq0. rewrite constrain_phase_theta.
    unfold in_q16, q16_min, q16_max in *.
    destruct (Z.ltb_spec q16_pi (theta q0)).
    - rewrite wrap16_small by (unfold in_q16, q16_min, q16_max; lia). lia.
    - destruct (Z.ltb_spec (theta q0) (- q16_pi)).
      + rewrite wrap16_small by (unfold in_q16, q16_min, q16_max; lia). lia.
      + lia. }
  split; [| split].
  - intros phi Hphi. apply H. exact Hphi.
  - intros dphi. apply H. apply wrap16_range.
  - apply H. apply wrap16_range.
Qed.

(** [nco_crcq16_constrain_frequency], which no function calls, does to the
    frequency what the phase constraint does to the phase: a frequency of
    magnitude below 2*pi ends in [-pi, pi], moved by 0 or 2*pi either way,
    and the phase is not touched. *)
Theorem constrain_frequency_bounds (q : nco_crcq16_s iirfiltsos_rrrq16) :
  q16_angles_ok q16_pi q16_2pi ->
  - q16_2pi < d_theta q < q16_2pi ->
  let q' := nco_crcq16_constrain_frequency q16_pi q16_2pi q in
  - q16_pi <= d_theta q' <= q16_pi /\
  (d_theta q' = d_theta q \/ d_theta q' = d_theta q - q16_2pi \/
   d_theta q' = d_theta q + q16_2pi) /\
  theta q' = theta q.
Proof.
  unfold q16_angles_ok, q16_max. intros (Hpi & Hlt & Hle & Hmax) Hf.
  cbv zeta. unfold nco_crcq16_constrain_frequency.
  destruct (Z.ltb_spec q16_pi (d_theta q)) as [H1 | H1].
  - cbn [d_theta theta set_d_theta].
    rewrite wrap16_small by (unfold in_q16, q16_min, q16_max; lia). lia.
  - destruct (Z.ltb_spec (d_theta q) (- q16_pi)) as [H2 | H2].
    + cbn [d_theta theta set_d_theta].
      rewrite wrap16_small by (unfold in_q16, q16_min, q16_max; lia). lia.
    + lia.
Qed.

Lemma pll_step_fields (q : nco_crcq16_s iirfiltsos_rrrq16) (_dphi : Z) :
  let r := iirfiltsos_rrrq16_execute_df1 (pll_filter q) _dphi in
  let q' := nco_crcq16_pll_step iirfiltsos_rrrq16_execute_df1 q _dphi in
  d_theta q' = wrap16 (d_theta q + snd r) /\ theta q' = theta q /\
  pll_filter q' = fst r.
Proof.
  cbv zeta. unfold nco_crcq16_pll_step, nco_crcq16_adjust_frequency.
  destruct (iirfiltsos_rrrq16_execute_df1 (pll_filter q) _dphi) as [f y].
  repeat split.
Qed.

(** A run of [nco_crcq16_pll_step] over a sequence of phase errors never
    moves the phase; the frequency ends at its start value plus the sum of
    the filter's outputs, modulo 2^16, and the filter in the state its run
    over the sequence leaves. *)
Theorem pll_steps_accumulate (es : list Z) :
  forall q : nco_crcq16_s iirfiltsos_rrrq16,
  in_q16 (d_theta q) ->
  let q' := fold_left (nco_crcq16_pll_step iirfiltsos_rrrq16_execute_df1) es q in
  let r := iirfiltsos_run iirfiltsos_rrrq16_execute_df1 (pll_filter q) es in
  theta q' = theta q /\
  d_theta q' = wrap16 (d_theta q + fold_right Z.add 0 (snd r)) /\
  pll_filter q' = fst r.
Proof.
  induction es as [| e es IH]; intros q Hq; cbv zeta.
  - cbn. rewrite Z.add_0_r, wrap16_small by exact Hq. repeat split.
  - cbn [fold_left iirfiltsos_run].
    pose proof (pll_step_fields q e) as Hs.
    cbv zeta in Hs. destruct Hs as (Hd & Ht & Hp).
    destruct (iirfiltsos_rrrq16_execute_df1 (pll_filter q) e) as [f1 y] eqn:He.
    cbn [fst snd] in Hd, Hp.
    specialize (IH (nco_crcq16_pll_step iirfiltsos_rrrq16_execute_df1 q e)).
    cbv zeta in IH. rewrite Hd, Ht, Hp in IH.
    specialize (IH (wrap16_range _)).
    destruct (iirfiltsos_run iirfiltsos_rrrq16_execute_df1 f1 es) as [f2 ys].
    cbn [fst snd fold_right] in *. destruct IH as (-> & -> & ->).
    repeat split. rewrite wrap16_add_l. f_equal. lia.
Qed.

End NcoMore.

(** ** Further properties of the OFDM preamble functions *)

Lemma length_array_set (_p : list Z) :
  forall i v, length (array_set _p i v) = length _p.
Proof.
  induction _p as [| x rest IH]; intros [| j] v; simpl; auto.
Qed.

Lemma nth_array_set (_p : list Z) :
  forall i v n d, (i < length _p)%nat ->
  nth n (array_set _p i v) d = if Nat.eqb n i then v else nth n _p d.
Proof.
  induction _p as [| x rest IH]; intros [| j] v [| m] d Hi; simpl in *;
    try lia; try reflexivity.
  apply IH. lia.
Qed.

Section OfdmframeMore.

Variables OFDMFRAME_SCTYPE_NULL OFDMFRAME_SCTYPE_PILOT OFDMFRAME_SCTYPE_DATA : Z.
Variable liquid_nextpow2 : Z -> Z.
Variable msequence : Type.
Variable msequence_create_default : Z -> msequence.
Variable msequence_generate_symbol : msequence -> Z -> msequence * Z.
Variable fft_run_reverse : Z -> list float_complex -> list float_complex.

(** *** Long sequence *)

Lemma init_S1_loop_spec (_p : list Z) :
  forall (ms : msequence) (c : Z),
  0 <= c -> c + Z.of_nat (length _p) < 2 ^ 32 ->
  let r := init_S1_loop OFDMFRAME_SCTYPE_NULL msequence_generate_symbol _p ms c in
  fst r = c + S1_active_count OFDMFRAME_SCTYPE_NULL _p /\
  map fc_is_unit (snd r) = S1_active OFDMFRAME_SCTYPE_NULL _p /\
  map fc_is_zero (snd r) = map negb (S1_active OFDMFRAME_SCTYPE_NULL _p).
Proof.
  unfold S1_active_count, S1_active.
  induction _p as [| t rest IH]; intros ms c Hc Hlen; cbv zeta.
  - simpl. repeat split. lia.
  - cbn [length map init_S1_loop fst snd].
    cbn [length] in Hlen. rewrite Nat2Z.inj_succ in Hlen.
    destruct (msequence_generate_symbol ms 3) as [ms1 sym].
    destruct (t =? OFDMFRAME_SCTYPE_NULL) eqn:Ht; cbn [negb filter].
    + specialize (IH ms1 c Hc ltac:(lia)). cbv zeta in IH.
      destruct (init_S1_loop OFDMFRAME_SCTYPE_NULL msequence_generate_symbol
                  rest ms1 c) as [n out].
      cbn [fst snd map] in *. destruct IH as (-> & -> & ->). repeat split.
    + assert (Hinc : uint_incr c = c + 1).
      { unfold uint_incr. apply Z.mod_small. lia. }
      rewrite Hinc.
      specialize (IH ms1 (c + 1) ltac:(lia) ltac:(lia)). cbv zeta in IH.
      destruct (init_S1_loop OFDMFRAME_SCTYPE_NULL msequence_generate_symbol
                  rest ms1 (c + 1)) as [n out].
      cbn [fst snd map length] in *. destruct IH as (-> & -> & ->).
      split; [lia |].
      destruct (Z.land sym 1 =? 0); split; reflexivity.
Qed.

(** What [ofdmframe_init_S1] returns, by the number of subcarriers to
    enable. *)
Lemma init_S1_run_spec (_p : list Z) :
  Z.of_nat (length _p) < 2 ^ 32 ->
  let run := ofdmframe_init_S1 OFDMFRAME_SCTYPE_NULL liquid_nextpow2
               msequence_create_default msequence_generate_symbol
               fft_run_reverse _p in
  (S1_active_count OFDMFRAME_SCTYPE_NULL _p = 0 ->
   run = Exit "error: ofdmframe_init_S1(), no subcarriers enabled; check allocation") /\
  (S1_active_count OFDMFRAME_SCTYPE_NULL _p <> 0 ->
   exists _S1 _s1,
     run = Ok (_S1, _s1, S1_active_count OFDMFRAME_SCTYPE_NULL _p) /\
     map fc_is_unit _S1 = S1_active OFDMFRAME_SCTYPE_NULL _p /\
     map fc_is_zero _S1 = map negb (S1_active OFDMFRAME_SCTYPE_NULL _p)).
Proof.
  intros Hlen. cbv zeta. unfold ofdmframe_init_S1.
  set (ms := msequence_create_default _).
  pose proof (init_S1_loop_spec _p ms 0 ltac:(lia) ltac:(lia)) as H.
  cbv zeta in H.
  destruct (init_S1_loop OFDMFRAME_SCTYPE_NULL msequence_generate_symbol _p ms 0)
    as [n out].
  cbn [fst snd] in H. destruct H as (Hn & Hu & Hz).
  rewrite Z.add_0_l in Hn. subst n. split.
  - intros ->. reflexivity.
  - intros Hne. apply Z.eqb_neq in Hne. rewrite Hne.
    eexists. eexists. split; [reflexivity |]. split; assumption.
Qed.

(** [ofdmframe_init_S1] enables exactly the subcarriers whose tag is not
    null (symbol +1 or -1 there, 0 elsewhere), returns their number in
    [*_M_S1], and terminates the process with its diagnostic exactly when
    there is none. *)
Theorem init_S1_active_count (_p : list Z) :
  Z.of_nat (length _p) < 2 ^ 32 ->
  let run := ofdmframe_init_S1 OFDMFRAME_SCTYPE_NULL liquid_nextpow2
               msequence_create_default msequence_generate_symbol
               fft_run_reverse _p in
  (S1_active_count OFDMFRAME_SCTYPE_NULL _p = 0 ->
   run = Exit "error: ofdmframe_init_S1(), no subcarriers enabled; check allocation") /\
  (S1_active_count OFDMFRAME_SCTYPE_NULL _p <> 0 ->
   exists _S1 _s1,
     run = Ok (_S1, _s1, S1_active_count OFDMFRAME_SCTYPE_NULL _p) /\
     map fc_is_unit _S1 = S1_active OFDMFRAME_SCTYPE_NULL _p /\
     map fc_is_zero _S1 = map negb (S1_active OFDMFRAME_SCTYPE_NULL _p)).
Proof. exact (init_S1_run_spec _p). Qed.

(** The subcarriers of the short sequence are among those of the long one. *)
Lemma S0_active_le_S1_active (_p : list Z) :
  forall k,
  le (length (filter (fun on => on)
        (map (fun it => Z.even (fst it) && negb (snd it =? OFDMFRAME_SCTYPE_NULL))
             (combine (map Z.of_nat (seq k (length _p))) _p))))
     (length (filter (fun on => on) (S1_active OFDMFRAME_SCTYPE_NULL _p))).
Proof.
  unfold S1_active.
  induction _p as [| t rest IH]; intros k; [simpl; lia |].
  cbn [length seq map combine fst snd filter].
  specialize (IH (S k)).
  destruct (t =? OFDMFRAME_SCTYPE_NULL); cbn [negb].
  - rewrite andb_false_r. exact IH.
  - rewrite andb_true_r. destruct (Z.even (Z.of_nat k)); cbn [length]; lia.
Qed.

(** On one allocation the short sequence never has more subcarriers than
    the long one, so whenever [ofdmframe_init_S1] terminates the process
    [ofdmframe_init_S0] does too, and whenever [ofdmframe_init_S0] returns
    [ofdmframe_init_S1] returns. *)
Theorem init_S0_needs_init_S1 (_p : list Z) :
  Z.of_nat (length _p) < 2 ^ 32 ->
  S0_active_count OFDMFRAME_SCTYPE_NULL _p <= S1_active_count OFDMFRAME_SCTYPE_NULL _p /\
  (is_exit (ofdmframe_init_S1 OFDMFRAME_SCTYPE_NULL liquid_nextpow2
              msequence_create_default msequence_generate_symbol
              fft_run_reverse _p) = true ->
   is_exit (ofdmframe_init_S0 OFDMFRAME_SCTYPE_NULL liquid_nextpow2
              msequence_create_default msequence_generate_symbol
              fft_run_reverse _p) = true).
Proof.
  intros Hlen.
  assert (Hle : S0_active_count OFDMFRAME_SCTYPE_NULL _p
                <= S1_active_count OFDMFRAME_SCTYPE_NULL _p).
  { unfold S0_active_count, S1_active_count, S0_active, subcarrier_indices.
    pose proof (S0_active_le_S1_active _p 0). lia. }
  split; [exact Hle |].
  pose proof (init_S1_run_spec _p Hlen) as H1. cbv zeta in H1.
  pose proof (init_S0_run_spec OFDMFRAME_SCTYPE_NULL liquid_nextpow2 msequence
                msequence_create_default msequence_generate_symbol
                fft_run_reverse _p Hlen) as H0. cbv zeta in H0.
  destruct H1 as [_ H1ok]. destruct H0 as [H0exit _].
  intros Hex.
  destruct (Z.eq_dec (S1_active_count OFDMFRAME_SCTYPE_NULL _p) 0) as [Hz | Hnz].
  - assert (Hz0 : S0_active_count OFDMFRAME_SCTYPE_NULL _p = 0).
    { unfold S0_active_count in *. lia. }
    rewrite (H0exit Hz0). reflexivity.
  - destruct (H1ok Hnz) as (s1 & s1' & Hrun & _). rewrite Hrun in Hex. discriminate.
Qed.

(** *** Validation *)

Lemma validate_sctype_loop_spec (_p : list Z) :
  OFDMFRAME_SCTYPE_NULL <> OFDMFRAME_SCTYPE_PILOT ->
  OFDMFRAME_SCTYPE_NULL <> OFDMFRAME_SCTYPE_DATA ->
  OFDMFRAME_SCTYPE_PILOT <> OFDMFRAME_SCTYPE_DATA ->
  forall n0 n1 n2,
  0 <= n0 -> 0 <= n1 -> 0 <= n2 ->
  n0 + n1 + n2 + Z.of_nat (length _p) < 2 ^ 32 ->
  validate_sctype_loop OFDMFRAME_SCTYPE_NULL OFDMFRAME_SCTYPE_PILOT
    OFDMFRAME_SCTYPE_DATA _p n0 n1 n2 =
  match find (fun t => negb (sctype_valid OFDMFRAME_SCTYPE_NULL
                               OFDMFRAME_SCTYPE_PILOT OFDMFRAME_SCTYPE_DATA t)) _p with
  | Some t =>
      Exit ("error: ofdmframe_validate_sctype(), invalid subcarrier type ("
            ++ printf_u t ++ ")")
  | None =>
      Ok (n0 + sctype_count OFDMFRAME_SCTYPE_NULL _p,
          n1 + sctype_count OFDMFRAME_SCTYPE_PILOT _p,
          n2 + sctype_count OFDMFRAME_SCTYPE_DATA _p)
  end.
Proof.
  intros Hnp Hnd Hpd. unfold sctype_count, sctype_valid.
  induction _p as [| t rest IH]; intros n0 n1 n2 H0 H1 H2 Hlen.
  - simpl. rewrite !Z.add_0_r. reflexivity.
  - cbn [length] in Hlen. rewrite Nat2Z.inj_succ in Hlen.
    cbn [validate_sctype_loop find filter].
    assert (Hinc : forall c, 0 <= c < 2 ^ 32 - 1 -> uint_incr c = c + 1).
    { intros c Hc'. unfold uint_incr. apply Z.mod_small. lia. }
    destruct (Z.eqb_spec t OFDMFRAME_SCTYPE_NULL) as [-> | Hn].
    + cbn [orb negb].
      destruct (Z.eqb_spec OFDMFRAME_SCTYPE_NULL OFDMFRAME_SCTYPE_PILOT); [contradiction |].
      destruct (Z.eqb_spec OFDMFRAME_SCTYPE_NULL OFDMFRAME_SCTYPE_DATA); [contradiction |].
      rewrite Hinc by lia. rewrite IH by lia.
      destruct (find _ rest); [reflexivity |].
      cbn [length]. rewrite Nat2Z.inj_succ. f_equal.
      apply pair_equal_spec; split; [apply pair_equal_spec; split |]; lia.
    + destruct (Z.eqb_spec t OFDMFRAME_SCTYPE_PILOT) as [-> | Hp].
      * cbn [orb negb].
        destruct (Z.eqb_spec OFDMFRAME_SCTYPE_PILOT OFDMFRAME_SCTYPE_DATA); [contradiction |].
        rewrite Hinc by lia. rewrite IH by lia.
        destruct (find _ rest); [reflexivity |].
        cbn [length]. rewrite Nat2Z.inj_succ. f_equal.
        apply pair_equal_spec; split; [apply pair_equal_spec; split |]; lia.
      * destruct (Z.eqb_spec t OFDMFRAME_SCTYPE_DATA) as [-> | Hd].
        -- cbn [orb negb].
           rewrite Hinc by lia. rewrite IH by lia.
           destruct (find _ rest); [reflexivity |].
           cbn [length]. rewrite Nat2Z.inj_succ. f_equal.
           apply pair_equal_spec; split; [apply pair_equal_spec; split |]; lia.
        -- reflexivity.
Qed.

Lemma sctype_counts_sum (_p : list Z) :
  OFDMFRAME_SCTYPE_NULL <> OFDMFRAME_SCTYPE_PILOT ->
  OFDMFRAME_SCTYPE_NULL <> OFDMFRAME_SCTYPE_DATA ->
  OFDMFRAME_SCTYPE_PILOT <> OFDMFRAME_SCTYPE_DATA ->
  forallb (sctype_valid OFDMFRAME_SCTYPE_NULL OFDMFRAME_SCTYPE_PILOT
             OFDMFRAME_SCTYPE_DATA) _p = true ->
  sctype_count OFDMFRAME_SCTYPE_NULL _p + sctype_count OFDMFRAME_SCTYPE_PILOT _p +
  sctype_count OFDMFRAME_SCTYPE_DATA _p = Z.of_nat (length _p).
Proof.
  intros Hnp Hnd Hpd. unfold sctype_count, sctype_valid.
  induction _p as [| t rest IH]; intros Hv; [reflexivity |].
  cbn [forallb] in Hv. apply andb_true_iff in Hv. destruct Hv as [Ht Hv].
  specialize (IH Hv). cbn [filter length].
  destruct (Z.eqb_spec t OFDMFRAME_SCTYPE_NULL) as [-> | Hn].
  - destruct (Z.eqb_spec OFDMFRAME_SCTYPE_NULL OFDMFRAME_SCTYPE_PILOT); [contradiction |].
    destruct (Z.eqb_spec OFDMFRAME_SCTYPE_NULL OFDMFRAME_SCTYPE_DATA); [contradiction |].
    cbn [length]. lia.
  - destruct (Z.eqb_spec t OFDMFRAME_SCTYPE_PILOT) as [-> | Hp].
    + destruct (Z.eqb_spec OFDMFRAME_SCTYPE_PILOT OFDMFRAME_SCTYPE_DATA); [contradiction |].
      cbn [length]. lia.
    + destruct (Z.eqb_spec t OFDMFRAME_SCTYPE_DATA) as [-> | Hd].
      * cbn [length]. lia.
      * discriminate.
Qed.

(** [ofdmframe_validate_sctype] terminates the process, naming the first
    tag that is none of the three, exactly when there is such a tag;
    otherwise it returns the number of null, of pilot and of data tags, which
    add up to the number of subcarriers. *)
Theorem validate_sctype_counts (_p : list Z) :
  OFDMFRAME_SCTYPE_NULL <> OFDMFRAME_SCTYPE_PILOT ->
  OFDMFRAME_SCTYPE_NULL <> OFDMFRAME_SCTYPE_DATA ->
  OFDMFRAME_SCTYPE_PILOT <> OFDMFRAME_SCTYPE_DATA ->
  Z.of_nat (length _p) < 2 ^ 32 ->
  let run := ofdmframe_validate_sctype OFDMFRAME_SCTYPE_NULL OFDMFRAME_SCTYPE_PILOT
               OFDMFRAME_SCTYPE_DATA _p in
  let valid := sctype_valid OFDMFRAME_SCTYPE_NULL OFDMFRAME_SCTYPE_PILOT
                 OFDMFRAME_SCTYPE_DATA in
  (forall t, find (fun t => negb (valid t)) _p = Some t ->
     run = Exit ("error: ofdmframe_validate_sctype(), invalid subcarrier type ("
                 ++ printf_u t ++ ")")) /\
  (forallb valid _p = true ->
     run = Ok (sctype_count OFDMFRAME_SCTYPE_NULL _p,
               sctype_count OFDMFRAME_SCTYPE_PILOT _p,
               sctype_count OFDMFRAME_SCTYPE_DATA _p) /\
     sctype_count OFDMFRAME_SCTYPE_NULL _p + sctype_count OFDMFRAME_SCTYPE_PILOT _p +
     sctype_count OFDMFRAME_SCTYPE_DATA _p = Z.of_nat (length _p)) /\
  (is_exit run = negb (forallb valid _p)).
Proof.
  intros Hnp Hnd Hpd Hlen. cbv zeta. unfold ofdmframe_validate_sctype.
  rewrite (validate_sctype_loop_spec _p Hnp Hnd Hpd 0 0 0) by lia.
  assert (Hfind : forall l,
            match find (fun t => negb (sctype_valid OFDMFRAME_SCTYPE_NULL
                          OFDMFRAME_SCTYPE_PILOT OFDMFRAME_SCTYPE_DATA t)) l with
            | Some _ => forallb (sctype_valid OFDMFRAME_SCTYPE_NULL
                          OFDMFRAME_SCTYPE_PILOT OFDMFRAME_SCTYPE_DATA) l = false
            | None => forallb (sctype_valid OFDMFRAME_SCTYPE_NULL
                          OFDMFRAME_SCTYPE_PILOT OFDMFRAME_SCTYPE_DATA) l = true
            end).
  { induction l as [| t rest IH]; [reflexivity |]. cbn [find forallb].
    destruct (sctype_valid _ _ _ t); cbn [negb andb]; [exact IH | reflexivity]. }
  specialize (Hfind _p).
  destruct (find _ _p) as [t0 |].
  - rewrite Hfind. split; [| split].
    + intros t Ht. injection Ht as <-. reflexivity.
    + discriminate.
    + reflexivity.
  - rewrite Hfind. split; [| split].
    + discriminate.
    + intros _. split; [reflexivity |].
      apply sctype_counts_sum; assumption.
    + reflexivity.
Qed.

End OfdmframeMore.

(** *** Default subcarrier allocation *)

Section DefaultSctype.

Variables OFDMFRAME_SCTYPE_NULL OFDMFRAME_SCTYPE_PILOT OFDMFRAME_SCTYPE_DATA : Z.

(** A band loop whose stores all fall inside the array runs to its end
    within [bound - i] iterations; it keeps the length of the array, writes
    the tag of [j] at [index_of j] for every [j] from [i] up to the bound,
    and leaves the other elements.  [inv] inverts [index_of] on the indices
    the loop visits. *)
Lemma default_sctype_band_done (index_of inv : Z -> Z) (bound P P2 : Z) :
  bound < 2 ^ 32 ->
  forall (fuel : nat) (i : Z) (_p : list Z),
  0 <= i ->
  (Z.to_nat (bound - i) <= fuel)%nat ->
  (forall j, i <= j < bound -> 0 <= index_of j < Z.of_nat (length _p)) ->
  (forall j, i <= j < bound -> inv (index_of j) = j) ->
  exists p',
    default_sctype_band OFDMFRAME_SCTYPE_PILOT OFDMFRAME_SCTYPE_DATA
      fuel index_of i bound P P2 _p = Sc_done p' /\
    length p' = length _p /\
    forall n, (n < length _p)%nat ->
      nth n p' 0 =
      if (i <=? inv (Z.of_nat n)) && (inv (Z.of_nat n) <? bound) &&
         (index_of (inv (Z.of_nat n)) =? Z.of_nat n)
      then default_sctype_tag OFDMFRAME_SCTYPE_PILOT OFDMFRAME_SCTYPE_DATA
             P P2 (inv (Z.of_nat n))
      else nth n _p 0.
Proof.
  intros Hb. induction fuel as [| fuel IH]; intros i _p Hi Hfuel Hin Hinv.
  - cbn [default_sctype_band].
    destruct (Z.ltb_spec i bound) as [Hlt | Hge]; [lia |].
    exists _p. split; [reflexivity |]. split; [reflexivity |].
    intros n Hn.
    destruct (Z.leb_spec i (inv (Z.of_nat n))),
             (Z.ltb_spec (inv (Z.of_nat n)) bound); cbn [andb];
      try reflexivity; lia.
  - cbn [default_sctype_band].
    destruct (Z.ltb_spec i bound) as [Hlt | Hge].
    + pose proof (Hin i ltac:(lia)) as Hidx.
      unfold array_store.
      destruct (Z.leb_spec 0 (index_of i)); [| lia].
      destruct (Z.ltb_spec (index_of i) (Z.of_nat (length _p))); [| lia].
      cbn [andb].
      assert (Hinc : uint_incr i = i + 1)
        by (unfold uint_incr; apply Z.mod_small; lia).
      rewrite Hinc.
      set (t := default_sctype_tag OFDMFRAME_SCTYPE_PILOT OFDMFRAME_SCTYPE_DATA P P2 i).
      set (p1 := array_set _p (Z.to_nat (index_of i)) t).
      assert (Hlen1 : length p1 = length _p) by apply length_array_set.
      destruct (IH (i + 1) p1 ltac:(lia) ltac:(lia)) as (p' & Hrun & Hlen & Hnth).
      { intros j Hj. rewrite Hlen1. apply Hin. lia. }
      { intros j Hj. apply Hinv. lia. }
      exists p'. split; [exact Hrun |]. split; [congruence |].
      intros n Hn. rewrite (Hnth n) by lia.
      unfold p1. rewrite nth_array_set by lia.
      destruct (Nat.eqb_spec n (Z.to_nat (index_of i))) as [Heq | Hne].
      * assert (Hzn : Z.of_nat n = index_of i) by lia.
        rewrite Hzn, (Hinv i) by lia. rewrite Z.eqb_refl.
        destruct (Z.leb_spec (i + 1) i); [lia |].
        destruct (Z.leb_spec i i); [| lia].
        destruct (Z.ltb_spec i bound); [| lia].
        reflexivity.
      * assert (Hzn : Z.of_nat n <> index_of i) by lia.
        destruct (Z.eqb_spec (index_of (inv (Z.of_nat n))) (Z.of_nat n)) as [He | He].
        -- assert (Hai : inv (Z.of_nat n) <> i) by (intros E; rewrite E in He; lia).
           destruct (Z.leb_spec (i + 1) (inv (Z.of_nat n))),
                    (Z.leb_spec i (inv (Z.of_nat n))); try lia; reflexivity.
        -- rewrite !andb_false_r. reflexivity.
    + exists _p. split; [reflexivity |]. split; [reflexivity |].
      intros n Hn.
      destruct (Z.leb_spec i (inv (Z.of_nat n))),
               (Z.ltb_spec (inv (Z.of_nat n)) bound); cbn [andb];
        try reflexivity; lia.
Qed.

Lemma default_sctype_bound_small (_M : Z) :
  4 <= _M < 2 ^ 32 ->
  default_sctype_bound _M = _M / 2 - default_sctype_G _M /\
  0 <= _M / 2 - default_sctype_G _M /\
  2 * (_M / 2 - default_sctype_G _M) <= _M - 4.
Proof.
  intros HM. unfold default_sctype_bound, default_sctype_G.
  assert (H2 : 0 <= _M / 10 <= _M / 2) by (Z.div_mod_to_equations; lia).
  assert (H3 : 2 <= _M / 2 /\ 2 * (_M / 2) <= _M) by (Z.div_mod_to_equations; lia).
  destruct (Z.ltb_spec (_M / 10) 2).
  - rewrite Z.mod_small by lia. lia.
  - rewrite Z.mod_small by lia. lia.
Qed.

(** The tag of a loop index below 2^31, without the reduction modulo 2^32. *)
Lemma default_sctype_tag_small (P P2 i : Z) :
  0 <= P2 < 2 ^ 31 -> 0 <= i < 2 ^ 31 ->
  default_sctype_tag OFDMFRAME_SCTYPE_PILOT OFDMFRAME_SCTYPE_DATA P P2 i =
  if (i + P2) mod P =? 0 then OFDMFRAME_SCTYPE_PILOT else OFDMFRAME_SCTYPE_DATA.
Proof.
  intros HP Hi. unfold default_sctype_tag. rewrite (Z.mod_small (i + P2)) by lia.
  reflexivity.
Qed.

(** The array [ofdmframe_init_default_sctype] writes for 4 subcarriers or
    more, element by element. *)
Lemma default_sctype_elements (_M : Z) :
  4 <= _M < 2 ^ 32 ->
  let B := _M / 2 - default_sctype_G _M in
  let P := default_sctype_P _M in
  exists _p,
    ofdmframe_init_default_sctype OFDMFRAME_SCTYPE_NULL OFDMFRAME_SCTYPE_PILOT
      OFDMFRAME_SCTYPE_DATA _M = (_M <? 6, Sc_done _p) /\
    length _p = Z.to_nat _M /\
    forall k, 0 <= k < _M ->
      nth (Z.to_nat k) _p 0 =
      if (1 <=? k) && (k <? B) then
        if (k + P / 2) mod P =? 0 then OFDMFRAME_SCTYPE_PILOT
        else OFDMFRAME_SCTYPE_DATA
      else if (1 <=? _M - k) && (_M - k <? B) then
        if (_M - k + P / 2) mod P =? 0 then OFDMFRAME_SCTYPE_PILOT
        else OFDMFRAME_SCTYPE_DATA
      else OFDMFRAME_SCTYPE_NULL.
Proof.
  intros HM. cbv zeta.
  destruct (default_sctype_bound_small _M HM) as (Hbound & HB0 & HB2).
  unfold ofdmframe_init_default_sctype. rewrite Hbound.
  set (B := _M / 2 - default_sctype_G _M) in *.
  set (P := default_sctype_P _M).
  assert (HP2 : 0 <= P / 2 < 2 ^ 31)
    by (unfold P, default_sctype_P; destruct (34 <? _M); cbv; split; congruence).
  set (p0 := repeat OFDMFRAME_SCTYPE_NULL (Z.to_nat _M)).
  assert (Hlen0 : length p0 = Z.to_nat _M) by apply repeat_length.
  destruct (default_sctype_band_done (fun i => i) (fun n => n) B P (P / 2)
              ltac:(lia) (Z.to_nat _M + 2)%nat 1 p0 ltac:(lia) ltac:(lia))
    as (p1 & Hrun1 & Hlen1 & Hnth1).
  { intros j Hj. rewrite Hlen0. lia. }
  { intros j Hj. reflexivity. }
  rewrite Hrun1.
  destruct (default_sctype_band_done (fun i => (_M - i) mod 2 ^ 32) (fun n => _M - n)
              B P (P / 2) ltac:(lia) (Z.to_nat _M + 2)%nat 1 p1
              ltac:(lia) ltac:(lia))
    as (p2 & Hrun2 & Hlen2 & Hnth2).
  { intros j Hj. rewrite Z.mod_small by lia. rewrite Hlen1, Hlen0. lia. }
  { intros j Hj. rewrite Z.mod_small by lia. lia. }
  rewrite Hrun2. exists p2. split; [reflexivity |]. split; [congruence |].
  intros k Hk.
  rewrite (Hnth2 (Z.to_nat k)) by lia. rewrite (Hnth1 (Z.to_nat k)) by lia.
  rewrite Z2Nat.id by lia.
  replace (_M - (_M - k)) with k by lia.
  rewrite (Z.mod_small k) by lia. rewrite !Z.eqb_refl, !andb_true_r.
  unfold p0.
  rewrite (nth_indep _ 0 OFDMFRAME_SCTYPE_NULL) by (rewrite repeat_length; lia).
  rewrite nth_repeat.
  assert (HB31 : B < 2 ^ 31) by (Z.div_mod_to_equations; lia).
  destruct (Z.leb_spec 1 k), (Z.ltb_spec k B), (Z.leb_spec 1 (_M - k)),
           (Z.ltb_spec (_M - k) B); cbn [andb];
    rewrite ?default_sctype_tag_small by lia; try reflexivity; lia.
Qed.

(** For 4 subcarriers or more [ofdmframe_init_default_sctype] stays inside
    the array and writes this allocation: with [B = M/2 - G] (the guard
    [G = max (M/10, 2)]) and the pilot spacing [P] (8 above 34 subcarriers,
    else 4), subcarrier [k] for [1 <= k < B] and its mirror [M - k] carry a
    pilot when [k + P/2] is a multiple of [P] and data otherwise; subcarrier
    0 and the remaining ones in the middle are null.  The warning is written
    exactly below 6 subcarriers. *)
Theorem init_default_sctype_layout (_M : Z) :
  4 <= _M < 2 ^ 32 ->
  let B := _M / 2 - default_sctype_G _M in
  let P := default_sctype_P _M in
  exists _p,
    ofdmframe_init_default_sctype OFDMFRAME_SCTYPE_NULL OFDMFRAME_SCTYPE_PILOT
      OFDMFRAME_SCTYPE_DATA _M = (_M <? 6, Sc_done _p) /\
    length _p = Z.to_nat _M /\
    forall k, 0 <= k < _M ->
      nth (Z.to_nat k) _p 0 =
      if (1 <=? k) && (k <? B) then
        if (k + P / 2) mod P =? 0 then OFDMFRAME_SCTYPE_PILOT
        else OFDMFRAME_SCTYPE_DATA
      else if (1 <=? _M - k) && (_M - k <? B) then
        if (_M - k + P / 2) mod P =? 0 then OFDMFRAME_SCTYPE_PILOT
        else OFDMFRAME_SCTYPE_DATA
      else OFDMFRAME_SCTYPE_NULL.
Proof. exact (default_sctype_elements _M). Qed.

(** Below 4 subcarriers the bound [M/2 - G] of the band loops wraps around
    as an [unsigned int], and the first band loop stores outside the array:
    the first such store is at index 1 for an array of at most one element
    and at index [_M] otherwise.  Only the warning is written. *)
Theorem init_default_sctype_overrun (_M : Z) :
  0 <= _M < 4 ->
  ofdmframe_init_default_sctype OFDMFRAME_SCTYPE_NULL OFDMFRAME_SCTYPE_PILOT
    OFDMFRAME_SCTYPE_DATA _M = (true, Sc_out_of_bounds (Z.max _M 1)).
Proof.
  intros HM.
  assert (H : _M = 0 \/ _M = 1 \/ _M = 2 \/ _M = 3) by lia.
  destruct H as [-> | [-> | [-> | ->]]]; reflexivity.
Qed.

End DefaultSctype.

(** *** The default allocation and the preamble sequences *)

(** The long sequence has a subcarrier exactly when some tag is not null. *)
Lemma S1_active_count_zero (null : Z) (_p : list Z) :
  S1_active_count null _p = 0 <-> Forall (fun t => t = null) _p.
Proof.
  unfold S1_active_count, S1_active.
  induction _p as [| t rest IH]; [split; [constructor | reflexivity] |].
  cbn [map filter]. destruct (Z.eqb_spec t null) as [-> | Hne]; cbn [negb].
  - rewrite IH. split; [intros H; constructor; [reflexivity | exact H] |].
    intros H. inversion H; assumption.
  - cbn [length]. split; [lia |].
    intros H. inversion H; contradiction.
Qed.

Lemma S0_active_nil_from (null : Z) (_p : list Z) :
  forall k,
  filter (fun on => on)
    (map (fun it => Z.even (fst it) && negb (snd it =? null))
         (combine (map Z.of_nat (seq k (length _p))) _p)) = [] <->
  (forall n, (n < length _p)%nat -> Z.even (Z.of_nat (k + n)) = true ->
             nth n _p 0 = null).
Proof.
  induction _p as [| t rest IH]; intros k.
  - split; [intros _ n Hn; simpl in Hn; lia | reflexivity].
  - cbn [length seq map combine fst snd filter].
    split.
    + intros H n Hn Hev.
      destruct (Z.even (Z.of_nat k) && negb (t =? null)) eqn:Hhd; [discriminate |].
      destruct n as [| m].
      * rewrite Nat.add_0_r in Hev. rewrite Hev in Hhd. cbn [andb] in Hhd.
        apply negb_false_iff in Hhd. apply Z.eqb_eq in Hhd. exact Hhd.
      * cbn [nth]. apply (proj1 (IH (S k)) H m); [simpl in Hn; lia |].
        replace (S k + m)%nat with (k + S m)%nat by lia. exact Hev.
    + intros H.
      assert (Hhd : Z.even (Z.of_nat k) && negb (t =? null) = false).
      { destruct (Z.even (Z.of_nat k)) eqn:Hk; [| reflexivity]. cbn [andb].
        apply negb_false_iff. apply Z.eqb_eq.
        apply (H 0%nat); [simpl; lia |]. rewrite Nat.add_0_r. exact Hk. }
      rewrite Hhd. apply (proj2 (IH (S k))).
      intros m Hm Hev. apply (H (S m)); [simpl; lia |].
      replace (k + S m)%nat with (S k + m)%nat by lia. exact Hev.
Qed.

(** The short sequence has no subcarrier exactly when every tag at an even
    index is null. *)
Lemma S0_active_count_zero (null : Z) (_p : list Z) :
  S0_active_count null _p = 0 <->
  (forall n, (n < length _p)%nat -> Z.even (Z.of_nat n) = true -> nth n _p 0 = null).
Proof.
  unfold S0_active_count, S0_active, subcarrier_indices.
  rewrite <- (S0_active_nil_from null _p 0).
  split.
  - intros H. apply length_zero_iff_nil. lia.
  - intros ->. reflexivity.
Qed.

Section DefaultSctypeUse.

Variables OFDMFRAME_SCTYPE_NULL OFDMFRAME_SCTYPE_PILOT OFDMFRAME_SCTYPE_DATA : Z.
Variable liquid_nextpow2 : Z -> Z.
Variable msequence : Type.
Variable msequence_create_default : Z -> msequence.
Variable msequence_generate_symbol : msequence -> Z -> msequence * Z.
Variable fft_run_reverse : Z -> list float_complex -> list float_complex.

(** The default allocation of 4 subcarriers or more passes
    [ofdmframe_validate_sctype]; [ofdmframe_init_S1] returns on it from 8
    subcarriers on and terminates the process below, and
    [ofdmframe_init_S0] returns on it from 9 subcarriers on and terminates
    the process below. *)
Theorem default_sctype_then_sequences (_M : Z) :
  OFDMFRAME_SCTYPE_NULL <> OFDMFRAME_SCTYPE_PILOT ->
  OFDMFRAME_SCTYPE_NULL <> OFDMFRAME_SCTYPE_DATA ->
  OFDMFRAME_SCTYPE_PILOT <> OFDMFRAME_SCTYPE_DATA ->
  4 <= _M < 2 ^ 32 ->
  exists _p,
    snd (ofdmframe_init_default_sctype OFDMFRAME_SCTYPE_NULL OFDMFRAME_SCTYPE_PILOT
           OFDMFRAME_SCTYPE_DATA _M) = Sc_done _p /\
    (exists n_null n_pilot n_data,
       ofdmframe_validate_sctype OFDMFRAME_SCTYPE_NULL OFDMFRAME_SCTYPE_PILOT
         OFDMFRAME_SCTYPE_DATA _p = Ok (n_null, n_pilot, n_data) /\
       n_null + n_pilot + n_data = _M) /\
    is_exit (ofdmframe_init_S1 OFDMFRAME_SCTYPE_NULL liquid_nextpow2
               msequence_create_default msequence_generate_symbol
               fft_run_reverse _p) = (_M <? 8) /\
    is_exit (ofdmframe_init_S0 OFDMFRAME_SCTYPE_NULL liquid_nextpow2
               msequence_create_default msequence_generate_symbol
               fft_run_reverse _p) = (_M <? 9).
Proof.
  intros Hnp Hnd Hpd HM.
  destruct (default_sctype_elements OFDMFRAME_SCTYPE_NULL OFDMFRAME_SCTYPE_PILOT
              OFDMFRAME_SCTYPE_DATA _M HM) as (p & Hrun & Hlen & Hnth).
  cbv zeta in Hnth.
  destruct (default_sctype_bound_small _M HM) as (_ & HB0 & HB2).
  set (B := _M / 2 - default_sctype_G _M) in *.
  set (P := default_sctype_P _M) in *.
  assert (Hlenz : Z.of_nat (length p) = _M) by lia.
  exists p. split; [rewrite Hrun; reflexivity |].
  (* every tag is one of the three *)
  assert (Htag : forall k, 0 <= k < _M ->
            nth (Z.to_nat k) p 0 = OFDMFRAME_SCTYPE_NULL \/
            ((1 <= k < B \/ 1 <= _M - k < B) /\
             nth (Z.to_nat k) p 0 <> OFDMFRAME_SCTYPE_NULL /\
             (nth (Z.to_nat k) p 0 = OFDMFRAME_SCTYPE_PILOT \/
              nth (Z.to_nat k) p 0 = OFDMFRAME_SCTYPE_DATA))).
  { intros k Hk. rewrite (Hnth k Hk).
    destruct (Z.leb_spec 1 k), (Z.ltb_spec k B); cbn [andb];
      try (destruct (Z.leb_spec 1 (_M - k)), (Z.ltb_spec (_M - k) B); cbn [andb]);
      try (left; reflexivity);
      right; (split; [lia |]);
      match goal with
      | |- context [?c =? 0] => destruct (c =? 0)
      end; split; auto. }
  assert (Hvalid : forallb (sctype_valid OFDMFRAME_SCTYPE_NULL OFDMFRAME_SCTYPE_PILOT
                              OFDMFRAME_SCTYPE_DATA) p = true).
  { apply forallb_forall. intros x Hx.
    destruct (In_nth p x 0 Hx) as (n & Hn & <-).
    destruct (Htag (Z.of_nat n) ltac:(lia)) as [H | (_ & _ & [H | H])];
      rewrite Nat2Z.id in H; rewrite H; unfold sctype_valid;
      rewrite ?Z.eqb_refl, ?orb_true_r; reflexivity. }
  split.
  { pose proof (validate_sctype_loop_spec OFDMFRAME_SCTYPE_NULL OFDMFRAME_SCTYPE_PILOT
                  OFDMFRAME_SCTYPE_DATA p Hnp Hnd Hpd 0 0 0
                  ltac:(lia) ltac:(lia) ltac:(lia) ltac:(lia)) as Hok.
    pose proof (sctype_counts_sum OFDMFRAME_SCTYPE_NULL OFDMFRAME_SCTYPE_PILOT
                  OFDMFRAME_SCTYPE_DATA p Hnp Hnd Hpd Hvalid) as Hsum.
    assert (Hnone : find (fun t => negb (sctype_valid OFDMFRAME_SCTYPE_NULL
                            OFDMFRAME_SCTYPE_PILOT OFDMFRAME_SCTYPE_DATA t)) p = None).
    { destruct (find _ p) as [t |] eqn:Hf; [| reflexivity].
      apply find_some in Hf. destruct Hf as [Hin Hbad].
      rewrite forallb_forall in Hvalid. rewrite (Hvalid t Hin) in Hbad. discriminate. }
    rewrite Hnone in Hok. unfold ofdmframe_validate_sctype.
    eexists. eexists. eexists. split; [exact Hok | lia]. }
  pose proof (init_S1_run_spec OFDMFRAME_SCTYPE_NULL liquid_nextpow2 msequence
                msequence_create_default msequence_generate_symbol fft_run_reverse
                p ltac:(lia)) as H1. cbv zeta in H1. destruct H1 as [H1z H1nz].
  pose proof (init_S0_run_spec OFDMFRAME_SCTYPE_NULL liquid_nextpow2 msequence
                msequence_create_default msequence_generate_symbol fft_run_reverse
                p ltac:(lia)) as H0. cbv zeta in H0. destruct H0 as (H0z & H0nz).
  assert (HG : B = _M / 2 - (if _M / 10 <? 2 then 2 else _M / 10))
    by reflexivity.
  split.
  - destruct (Z.ltb_spec _M 8) as [Hlt | Hge].
    + rewrite H1z; [reflexivity |].
      apply S1_active_count_zero. apply Forall_forall. intros x Hx.
      destruct (In_nth p x 0 Hx) as (n & Hn & <-).
      destruct (Htag (Z.of_nat n) ltac:(lia)) as [H | (Hr & _)];
        [rewrite Nat2Z.id in H; exact H |].
      exfalso. destruct (_M / 10 <? 2); Z.div_mod_to_equations; lia.
    + assert (Hnz : S1_active_count OFDMFRAME_SCTYPE_NULL p <> 0).
      { intros Hz. apply S1_active_count_zero in Hz.
        rewrite Forall_forall in Hz.
        assert (H1B : 1 < B)
          by (destruct (Z.ltb_spec (_M / 10) 2); Z.div_mod_to_equations; lia).
        pose proof (Hnth 1 ltac:(lia)) as Ht.
        destruct (Z.leb_spec 1 1); [| lia].
        destruct (Z.ltb_spec 1 B); [| lia]. cbn [andb] in Ht.
        assert (Hin : In (nth (Z.to_nat 1) p 0) p) by (apply nth_In; lia).
        apply Hz in Hin. rewrite Hin in Ht.
        destruct ((1 + P / 2) mod P =? 0); congruence. }
      destruct (H1nz Hnz) as (s & s' & -> & _). reflexivity.
  - destruct (Z.ltb_spec _M 9) as [Hlt | Hge].
    + rewrite H0z; [reflexivity |].
      apply S0_active_count_zero. intros n Hn Hev.
      destruct (Htag (Z.of_nat n) ltac:(lia)) as [H | (Hr & _)];
        [rewrite Nat2Z.id in H; exact H |].
      exfalso. apply Z.even_spec in Hev. destruct Hev as [h Hh].
      destruct (_M / 10 <? 2); Z.div_mod_to_equations; lia.
    + assert (Hnz : S0_active_count OFDMFRAME_SCTYPE_NULL p <> 0).
      { intros Hz. rewrite S0_active_count_zero in Hz.
        destruct (Z.eq_dec _M 9) as [H9 | H9].
        - (* the mirror of subcarrier 1 is subcarrier 8 *)
          specialize (Hz 8%nat ltac:(lia) eq_refl).
          pose proof (Hnth 8 ltac:(lia)) as Ht.
          assert (HB : B = 2) by (rewrite HG, H9; reflexivity).
          rewrite H9, HB in Ht. change (Z.to_nat 8) with 8%nat in Ht.
          rewrite Hz in Ht.
          change ((1 <=? 8) && (8 <? 2)) with false in Ht.
          change ((1 <=? 9 - 8) && (9 - 8 <? 2)) with true in Ht.
          cbv iota in Ht.
          destruct ((9 - 8 + P / 2) mod P =? 0); congruence.
        - assert (H2B : 2 < B)
            by (destruct (Z.ltb_spec (_M / 10) 2); Z.div_mod_to_equations; lia).
          specialize (Hz 2%nat ltac:(lia) eq_refl).
          pose proof (Hnth 2 ltac:(lia)) as Ht.
          destruct (Z.leb_spec 1 2); [| lia].
          destruct (Z.ltb_spec 2 B); [| lia]. cbn [andb] in Ht.
          change (Z.to_nat 2) with 2%nat in Ht. rewrite Hz in Ht.
          destruct ((2 + P / 2) mod P =? 0); congruence. }
      destruct (H0nz Hnz) as (s & s' & ->). reflexivity.
Qed.

End DefaultSctypeUse.

(** *** Printing an allocation *)

Lemma nth_skipn_add {A : Type} (l : list A) (d : A) :
  forall h n, nth n (skipn h l) d = nth (h + n) l d.
Proof.
  induction l as [| x rest IH]; intros [| h] n; simpl; try reflexivity.
  - destruct n; reflexivity.
  - apply IH.
Qed.

Lemma nth_firstn_lt {A : Type} (l : list A) (d : A) :
  forall h n, (n < h)%nat -> nth n (firstn h l) d = nth n l d.
Proof.
  induction l as [| x rest IH]; intros [| h] [| n] Hn; simpl; try reflexivity; try lia.
  apply IH. lia.
Qed.

(** Reading an array of [n] elements at the indices [(i + h) mod n] for
    [i = 0 .. n-1], with [h <= n], reads its elements from [h] on and then
    its first [h] elements. *)
Lemma rotate_by_index (_p : list Z) (h : nat) :
  (h <= length _p)%nat ->
  map (fun i => nth (Z.to_nat ((i + Z.of_nat h) mod Z.of_nat (length _p))) _p 0)
      (map Z.of_nat (seq 0 (length _p)))
  = (skipn h _p ++ firstn h _p)%list.
Proof.
  intros Hh. set (n := length _p).
  assert (Hlen : length (skipn h _p ++ firstn h _p)%list = n).
  { rewrite length_app, length_skipn, length_firstn. fold n. lia. }
  apply (nth_ext _ _ 0 0).
  - rewrite !length_map, length_seq. symmetry. exact Hlen.
  - intros i Hi. rewrite !length_map, length_seq in Hi.
    rewrite map_map.
    rewrite (nth_indep _ 0
               (nth (Z.to_nat ((Z.of_nat 0 + Z.of_nat h) mod Z.of_nat n)) _p 0))
      by (rewrite length_map, length_seq; exact Hi).
    rewrite (map_nth (fun x => nth (Z.to_nat ((Z.of_nat x + Z.of_nat h) mod Z.of_nat n)) _p 0)).
    rewrite seq_nth by exact Hi. cbn [Nat.add].
    destruct (Nat.lt_ge_cases (i + h) n) as [Hlt | Hge].
    + rewrite Z.mod_small by lia.
      rewrite app_nth1 by (rewrite length_skipn; fold n; lia).
      rewrite nth_skipn_add. f_equal. lia.
    + assert (Hk : (Z.of_nat i + Z.of_nat h) mod Z.of_nat n
                   = Z.of_nat i + Z.of_nat h - Z.of_nat n).
      { symmetry. apply (Z.mod_unique _ _ 1); lia. }
      rewrite Hk.
      rewrite app_nth2 by (rewrite length_skipn; fold n; lia).
      rewrite length_skipn. fold n.
      rewrite nth_firstn_lt by lia. f_equal. lia.
Qed.

Section PrintSctype.

Variables OFDMFRAME_SCTYPE_NULL OFDMFRAME_SCTYPE_PILOT OFDMFRAME_SCTYPE_DATA : Z.

Lemma print_sctype_loop_tags (_p : list Z) (_M : Z) (is_ : list Z) :
  print_sctype_loop OFDMFRAME_SCTYPE_NULL OFDMFRAME_SCTYPE_PILOT
    OFDMFRAME_SCTYPE_DATA _p _M is_ =
  print_tags (print_sctype_char OFDMFRAME_SCTYPE_NULL OFDMFRAME_SCTYPE_PILOT
                OFDMFRAME_SCTYPE_DATA)
    (map (fun i => nth (Z.to_nat (((i + _M / 2) mod 2 ^ 32) mod _M)) _p 0) is_).
Proof.
  induction is_ as [| i rest IH]; [reflexivity |].
  cbn [print_sctype_loop map print_tags]. rewrite IH. reflexivity.
Qed.

(** [ofdmframe_print_sctype] writes the opening bracket and then the
    characters of the tags in the order of the second half of the array
    followed by its first half (from index [M/2] on, then from index 0), the
    zero frequency in the middle.  With valid tags only it ends with the
    closing bracket and a newline; at the first tag in that order that is
    none of the three it stops writing and terminates the process. *)
Theorem print_sctype_order (_p : list Z) :
  let _M := Z.of_nat (length _p) in
  _M + _M / 2 < 2 ^ 32 ->
  let h := Z.to_nat (_M / 2) in
  let r := print_tags (print_sctype_char OFDMFRAME_SCTYPE_NULL OFDMFRAME_SCTYPE_PILOT
                         OFDMFRAME_SCTYPE_DATA)
                      (skipn h _p ++ firstn h _p)%list in
  ofdmframe_print_sctype OFDMFRAME_SCTYPE_NULL OFDMFRAME_SCTYPE_PILOT
    OFDMFRAME_SCTYPE_DATA _p =
  if snd r then
    ("[" ++ fst r,
     Some "error: ofdmframe_print_default_sctype(), invalid subcarrier type")
  else ("[" ++ fst r ++ "]" ++ String (Ascii.ascii_of_nat 10) "", None).
Proof.
  cbv zeta. intros HM. unfold ofdmframe_print_sctype.
  rewrite print_sctype_loop_tags. unfold subcarrier_indices.
  set (n := length _p) in *.
  assert (Hh : (Z.to_nat (Z.of_nat n / 2) <= n)%nat).
  { assert (0 <= Z.of_nat n / 2 <= Z.of_nat n) by (Z.div_mod_to_equations; lia). lia. }
  assert (Hmap :
    map (fun i => nth (Z.to_nat (((i + Z.of_nat n / 2) mod 2 ^ 32) mod Z.of_nat n)) _p 0)
        (map Z.of_nat (seq 0 n)) =
    map (fun i => nth (Z.to_nat ((i + Z.of_nat (Z.to_nat (Z.of_nat n / 2)))
                                   mod Z.of_nat n)) _p 0)
        (map Z.of_nat (seq 0 n))).
  { apply map_ext_in. intros i Hi. apply in_map_iff in Hi.
    destruct Hi as (j & <- & Hj). apply in_seq in Hj.
    assert (0 <= Z.of_nat n / 2) by (Z.div_mod_to_equations; lia).
    rewrite Z2Nat.id by lia.
    rewrite (Z.mod_small (Z.of_nat j + Z.of_nat n / 2)) by lia. reflexivity. }
  rewrite Hmap. subst n. rewrite (rotate_by_index _p _ Hh).
  destruct (print_tags _ _) as [text stops]. cbn [fst snd].
  destruct stops; reflexivity.
Qed.

End PrintSctype.

(** ** Phase accumulation from any constrained phase *)

Section NcoStepsFrom.

Variables q16_pi q16_2pi : Z.
Variable iirfiltsos_rrrq16 : Type.

(** From any phase in [-pi, pi] and with a frequency of magnitude at most
    pi, [n] calls of [nco_crcq16_step] leave the phase in [-pi, pi] and
    equal to the initial phase plus [n] times the frequency modulo 2*pi; the
    frequency is unchanged. *)
Theorem steps_from_constrained_phase (q : nco_crcq16_s iirfiltsos_rrrq16) (n : nat) :
  q16_angles_ok q16_pi q16_2pi -> 2 * q16_pi <= q16_max ->
  - q16_pi <= theta q <= q16_pi ->
  - q16_pi <= d_theta q <= q16_pi ->
  let q' := Nat.iter n (nco_crcq16_step q16_pi q16_2pi) q in
  - q16_pi <= theta q' <= q16_pi /\
  (theta q' - (theta q + Z.of_nat n * d_theta q)) mod q16_2pi = 0 /\
  d_theta q' = d_theta q.
Proof.
  intros Hok H2pi Hth Hf. cbv zeta.
  destruct (steps_bounds q16_pi q16_2pi _ q n Hok H2pi Hth Hf) as [Hr [k Hk]].
  split; [exact Hr |]. split; [| apply steps_d_theta].
  rewrite Hk.
  replace (theta q + Z.of_nat n * d_theta q + k * q16_2pi -
           (theta q + Z.of_nat n * d_theta q)) with (k * q16_2pi) by lia.
  apply Z.mod_mul. destruct Hok as (? & ? & _). lia.
Qed.

End NcoStepsFrom.

(** ** The symbols of the preamble sequences *)

Section OfdmframeSymbols.

Variable OFDMFRAME_SCTYPE_NULL : Z.
Variable liquid_nextpow2 : Z -> Z.
Variable msequence : Type.
Variable msequence_create_default : Z -> msequence.
Variable msequence_generate_symbol : msequence -> Z -> msequence * Z.
Variable fft_run_reverse : Z -> list float_complex -> list float_complex.

Lemma init_S0_loop_symbols (_p : list Z) :
  forall (k : nat) (ms : msequence) (c : Z),
  snd (init_S0_loop OFDMFRAME_SCTYPE_NULL msequence_generate_symbol
         _p (Z.of_nat k) ms c) =
  sequence_symbols
    (map (fun it => Z.even (fst it) && negb (snd it =? OFDMFRAME_SCTYPE_NULL))
         (combine (map Z.of_nat (seq k (length _p))) _p))
    (msequence_symbols msequence_generate_symbol ms (length _p)).
Proof.
  unfold sequence_symbols.
  induction _p as [| t rest IH]; intros k ms c; [reflexivity |].
  cbn [length seq map combine init_S0_loop msequence_symbols fst snd].
  destruct (msequence_generate_symbol ms 3) as [ms1 sym].
  replace (Z.of_nat k + 1) with (Z.of_nat (S k)) by lia.
  assert (Hev : (Z.of_nat k mod 2 =? 0) = Z.even (Z.of_nat k)).
  { rewrite Zmod_even. destruct (Z.even (Z.of_nat k)); reflexivity. }
  rewrite Hev.
  destruct (t =? OFDMFRAME_SCTYPE_NULL).
  - rewrite andb_false_r. specialize (IH (S k) ms1 c).
    destruct (init_S0_loop _ _ rest (Z.of_nat (S k)) ms1 c) as [n out].
    cbn [snd map combine fst] in *. rewrite IH. reflexivity.
  - rewrite andb_true_r. cbn [negb]. destruct (Z.even (Z.of_nat k)).
    + specialize (IH (S k) ms1 (uint_incr c)).
      destruct (init_S0_loop _ _ rest (Z.of_nat (S k)) ms1 (uint_incr c)) as [n out].
      cbn [snd map combine fst] in *. rewrite IH. reflexivity.
    + specialize (IH (S k) ms1 c).
      destruct (init_S0_loop _ _ rest (Z.of_nat (S k)) ms1 c) as [n out].
      cbn [snd map combine fst] in *. rewrite IH. reflexivity.
Qed.

Lemma init_S1_loop_symbols (_p : list Z) :
  forall (ms : msequence) (c : Z),
  snd (init_S1_loop OFDMFRAME_SCTYPE_NULL msequence_generate_symbol _p ms c) =
  sequence_symbols (S1_active OFDMFRAME_SCTYPE_NULL _p)
    (msequence_symbols msequence_generate_symbol ms (length _p)).
Proof.
  unfold sequence_symbols, S1_active.
  induction _p as [| t rest IH]; intros ms c; [reflexivity |].
  cbn [length map combine init_S1_loop msequence_symbols fst snd].
  destruct (msequence_generate_symbol ms 3) as [ms1 sym].
  destruct (t =? OFDMFRAME_SCTYPE_NULL); cbn [negb].
  - specialize (IH ms1 c).
    destruct (init_S1_loop _ _ rest ms1 c) as [n out].
    cbn [snd map combine fst] in *. rewrite IH. reflexivity.
  - specialize (IH ms1 (uint_incr c)).
    destruct (init_S1_loop _ _ rest ms1 (uint_incr c)) as [n out].
    cbn [snd map combine fst] in *. rewrite IH. reflexivity.
Qed.

(** When [ofdmframe_init_S0] returns, its three outputs are these: the
    frequency-domain symbol carries, at each enabled subcarrier, +1 or -1 by
    the low bit of the generator symbol drawn for that index (one symbol is
    drawn for every subcarrier, enabled or not, from a generator of length
    between 4 and 8) and 0 elsewhere; the time-domain symbol is its reverse
    FFT scaled by [1/sqrtf(M_S0)]; the count is the number of enabled
    subcarriers. *)
Theorem init_S0_outputs (_p : list Z) :
  Z.of_nat (length _p) < 2 ^ 32 ->
  S0_active_count OFDMFRAME_SCTYPE_NULL _p <> 0 ->
  let _M := Z.of_nat (length _p) in
  let m := S0_msequence_length liquid_nextpow2 _M in
  let _S0 := sequence_symbols (S0_active OFDMFRAME_SCTYPE_NULL _p)
               (msequence_symbols msequence_generate_symbol
                  (msequence_create_default m) (length _p)) in
  let g := f32_div f32_1
             (f32_sqrt (f32_of_Z (S0_active_count OFDMFRAME_SCTYPE_NULL _p))) in
  4 <= m <= 8 /\
  ofdmframe_init_S0 OFDMFRAME_SCTYPE_NULL liquid_nextpow2 msequence_create_default
    msequence_generate_symbol fft_run_reverse _p =
  Ok (_S0, map (fun z => fc_scale z g) (fft_run_reverse _M _S0),
      S0_active_count OFDMFRAME_SCTYPE_NULL _p).
Proof.
  intros Hlen Hne. cbv zeta. split.
  - unfold S0_msequence_length.
    destruct (Z.ltb_spec (liquid_nextpow2 (Z.of_nat (length _p))) 4); [lia |].
    destruct (Z.ltb_spec 8 (liquid_nextpow2 (Z.of_nat (length _p)))); lia.
  - unfold ofdmframe_init_S0.
    set (ms := msequence_create_default _).
    pose proof (init_S0_loop_spec OFDMFRAME_SCTYPE_NULL msequence
                  msequence_generate_symbol _p 0 ms 0 ltac:(lia) ltac:(lia)) as H.
    pose proof (init_S0_loop_symbols _p 0 ms 0) as Hs.
    cbv zeta in H. change (Z.of_nat 0) with 0 in H, Hs.
    destruct (init_S0_loop OFDMFRAME_SCTYPE_NULL msequence_generate_symbol _p 0 ms 0)
      as [n out].
    cbn [fst snd] in H, Hs. destruct H as (Hn & _ & _).
    fold (subcarrier_indices _p) in Hn, Hs.
    fold (S0_active OFDMFRAME_SCTYPE_NULL _p) in Hn, Hs.
    fold (S0_active_count OFDMFRAME_SCTYPE_NULL _p) in Hn.
    rewrite Z.add_0_l in Hn. subst n out.
    apply Z.eqb_neq in Hne. rewrite Hne. reflexivity.
Qed.

(** When [ofdmframe_init_S1] returns, its outputs are the same with the
    subcarriers whose tag is not null for the enabled ones and a generator
    of length between 5 and 9. *)
Theorem init_S1_outputs (_p : list Z) :
  Z.of_nat (length _p) < 2 ^ 32 ->
  S1_active_count OFDMFRAME_SCTYPE_NULL _p <> 0 ->
  let _M := Z.of_nat (length _p) in
  let m := S1_msequence_length liquid_nextpow2 _M in
  let _S1 := sequence_symbols (S1_active OFDMFRAME_SCTYPE_NULL _p)
               (msequence_symbols msequence_generate_symbol
                  (msequence_create_default m) (length _p)) in
  let g := f32_div f32_1
             (f32_sqrt (f32_of_Z (S1_active_count OFDMFRAME_SCTYPE_NULL _p))) in
  5 <= m <= 9 /\
  ofdmframe_init_S1 OFDMFRAME_SCTYPE_NULL liquid_nextpow2 msequence_create_default
    msequence_generate_symbol fft_run_reverse _p =
  Ok (_S1, map (fun z => fc_scale z g) (fft_run_reverse _M _S1),
      S1_active_count OFDMFRAME_SCTYPE_NULL _p).
Proof.
  intros Hlen Hne. cbv zeta. split.
  - unfold S1_msequence_length, S0_msequence_length, uint_incr.
    destruct (Z.ltb_spec (liquid_nextpow2 (Z.of_nat (length _p))) 4);
      [rewrite Z.mod_small; lia |].
    destruct (Z.ltb_spec 8 (liquid_nextpow2 (Z.of_nat (length _p))));
      rewrite Z.mod_small; lia.
  - unfold ofdmframe_init_S1.
    set (ms := msequence_create_default _).
    pose proof (init_S1_loop_spec OFDMFRAME_SCTYPE_NULL msequence
                  msequence_generate_symbol _p ms 0 ltac:(lia) ltac:(lia)) as H.
    pose proof (init_S1_loop_symbols _p ms 0) as Hs.
    cbv zeta in H.
    destruct (init_S1_loop OFDMFRAME_SCTYPE_NULL msequence_generate_symbol _p ms 0)
      as [n out].
    cbn [fst snd] in H, Hs. destruct H as (Hn & _ & _).
    rewrite Z.add_0_l in Hn. subst n out.
    apply Z.eqb_neq in Hne. rewrite Hne. reflexivity.
Qed.

End OfdmframeSymbols.

(** ** The statements at an instance of the parameters *)

Lemma example_angles_ok : q16_angles_ok example_pi example_2pi.
Proof. unfold q16_angles_ok, example_pi, example_2pi, q16_max. lia. Qed.

(** The phase -pi passes [nco_crcq16_set_phase] unchanged, whatever the
    constants: the lower bound of the constrained phase is attained. *)
Lemma set_phase_minus_pi (q16_pi q16_2pi : Z) (iirfiltsos_rrrq16 : Type)
      (q : nco_crcq16_s iirfiltsos_rrrq16) :
  0 <= q16_pi ->
  theta (nco_crcq16_set_phase q16_pi q16_2pi q (- q16_pi)) = - q16_pi.
Proof.
  intros Hpi. unfold nco_crcq16_set_phase. rewrite constrain_phase_theta.
  cbn [theta set_theta].
  destruct (Z.ltb_spec q16_pi (- q16_pi)); [lia |].
  destruct (Z.ltb_spec (- q16_pi) (- q16_pi)); [lia | reflexivity].
Qed.

(** C1, as stated, fails at the phase -pi, whose magnitude is below 2*pi:
    the stored phase is -pi, outside (-pi, pi]. *)
Lemma set_phase_minus_pi_not_open :
  - example_2pi < - example_pi < example_2pi /\
  theta (nco_crcq16_set_phase example_pi example_2pi example_nco (- example_pi))
  = - example_pi /\
  ~ (- example_pi <
     theta (nco_crcq16_set_phase example_pi example_2pi example_nco (- example_pi))
     <= example_pi).
Proof.
  split; [unfold example_pi, example_2pi; lia |].
  rewrite set_phase_minus_pi by (unfold example_pi; lia).
  split; [reflexivity | lia].
Qed.

Lemma phase_constrained_after_update_witness :
  q16_angles_ok example_pi example_2pi /\
  - example_pi <=
    theta (nco_crcq16_set_phase example_pi example_2pi example_nco 20000)
  <= example_pi.
Proof.
  split; [exact example_angles_ok |].
  apply (proj1 (phase_constrained_after_update example_pi example_2pi unit
                  example_nco example_angles_ok) 20000).
  unfold example_2pi; lia.
Defined.

Lemma compute_sincos_nco_scales_stored_integer_witness :
  512 < example_2pi /\
  (exists q',
     nco_crcq16_compute_sincos_nco example_undef (set_theta example_nco 1) = Ok q' /\
     index q' = 41 /\
     sine q' = nth 41 (sintab example_nco) 0 /\
     cosine q' = nth 105 (sintab example_nco) 0) /\
  claimed_nco_index example_2pi 1 = 128.
Proof.
  assert (H : 512 < example_2pi) by (unfold example_2pi; lia).
  split; [exact H |].
  pose proof (compute_sincos_nco_scales_stored_integer unit example_undef
                example_nco example_2pi H) as (H1 & H2 & _).
  split; [exact H1 | exact H2].
Defined.

(** C3, as stated, fails for these constants: with the frequency 32767 the
    phase after two steps is -2, while [2 * 32767] wrapped into (-pi, pi] is
    -11674; with the frequency -pi the phase after one step is -pi, outside
    (-pi, pi]. *)
Lemma steps_phase_not_for_every_frequency :
  (theta (Nat.iter 2 (nco_crcq16_step example_pi example_2pi)
            (nco_crcq16_set_frequency example_nco 32767)) = -2 /\
   (-11674 - 2 * 32767) mod example_2pi = 0 /\
   - example_pi < -11674 <= example_pi /\
   (-2 - 2 * 32767) mod example_2pi <> 0) /\
  (theta (Nat.iter 1 (nco_crcq16_step example_pi example_2pi)
            (nco_crcq16_set_frequency example_nco (- example_pi))) = - example_pi /\
   ~ (- example_pi < - example_pi)).
Proof.
  split.
  - split; [vm_compute; reflexivity |].
    split; [vm_compute; reflexivity |].
    split; [unfold example_pi; lia | vm_compute; discriminate].
  - split; [vm_compute; reflexivity | lia].
Qed.

Lemma steps_phase_witness :
  (q16_angles_ok example_pi example_2pi /\ 2 * example_pi <= q16_max /\
   theta (nco_crcq16_set_frequency example_nco 101) = 0 /\
   d_theta (nco_crcq16_set_frequency example_nco 101) = 101 /\
   - example_pi <= 101 <= example_pi /\
   2 * Z.abs (256 * 101 - example_2pi) <= 256 /\
   128 < example_2pi - example_pi) /\
  (theta (Nat.iter 300 (nco_crcq16_step example_pi example_2pi)
            (nco_crcq16_set_frequency example_nco 101)) - Z.of_nat 300 * 101)
    mod example_2pi = 0 /\
  theta (Nat.iter 256 (nco_crcq16_step example_pi example_2pi)
           (nco_crcq16_set_frequency example_nco 101)) = 256 * 101 - example_2pi.
Proof.
  assert (H1 : 2 * example_pi <= q16_max) by (unfold example_pi, q16_max; lia).
  assert (H2 : - example_pi <= 101 <= example_pi) by (unfold example_pi; lia).
  assert (H3 : 2 * Z.abs (256 * 101 - example_2pi) <= 256)
    by (unfold example_2pi; lia).
  assert (H4 : 128 < example_2pi - example_pi)
    by (unfold example_pi, example_2pi; lia).
  split; [repeat split; try assumption; apply example_angles_ok |].
  pose proof (steps_phase example_pi example_2pi unit
                (nco_crcq16_set_frequency example_nco 101) 101 300
                example_angles_ok H1 eq_refl eq_refl H2) as (Hn & H256).
  split; [exact (proj2 Hn) | exact (proj1 (H256 H3 H4))].
Defined.

Lemma pll_set_bandwidth_outcome_witness :
  in_q16 5 /\
  is_exit (nco_crcq16_pll_set_bandwidth example_set_coefficients example_undef
             example_nco 5) = false.
Proof.
  assert (H : in_q16 5) by (unfold in_q16, q16_min, q16_max; lia).
  split; [exact H |].
  exact (proj1 (pll_set_bandwidth_outcome unit example_set_coefficients
                  example_undef example_nco 5 H)).
Defined.

(** C6 at the bandwidth 100: the stored feed-back coefficients are
    (1, 0, 0) and the feed-forward ones (2013, 4000, 1986), while the stated
    [a1 = -1 + t1/2] is -19/20: the floating values are assigned to the
    [q16_t] arrays without [q16_float_to_fixed]. *)
Lemma pll_a1_at_100_is_truncated :
  (exists q',
     nco_crcq16_pll_set_bandwidth example_set_coefficients example_undef
       example_nco 100 = Ok q' /\
     a q' = (1, 0, 0) /\ b q' = (2013, 4000, 1986)) /\
  (claimed_a1 100 == - (19 # 20))%Q /\
  ~ (inject_Z 0 == claimed_a1 100)%Q.
Proof.
  split; [eexists; split; [vm_compute; reflexivity | split; reflexivity] |].
  split; [vm_compute; reflexivity |].
  intros H. vm_compute in H. discriminate.
Qed.

Lemma compute_sincos_nco_in_table_witness :
  length (sintab example_nco) = 256%nat /\
  exists q',
    nco_crcq16_compute_sincos_nco example_undef example_nco = Ok q' /\
    0 <= index q' < 256 /\
    (Z.to_nat (index q') < length (sintab q'))%nat /\
    (Z.to_nat (Z.land (index q' + 64) 255) < length (sintab q'))%nat.
Proof.
  split; [reflexivity |].
  exact (compute_sincos_nco_in_table unit example_undef example_nco eq_refl).
Defined.

Lemma init_S0_active_count_witness :
  Z.of_nat (length (repeat 2 64)) < 2 ^ 32 /\
  S0_active_count 0 (repeat 2 64) = 32.
Proof.
  assert (H : Z.of_nat (length (repeat 2 64)) < 2 ^ 32) by (cbn; lia).
  split; [exact H |].
  apply (init_S0_active_count 0 example_fn Z example_fn example_generate_symbol
           example_fft (repeat 2 64) H).
  - reflexivity.
  - apply Forall_forall. intros t Ht. apply repeat_spec in Ht. subst t. discriminate.
Defined.

Lemma pll_set_bandwidth_coefficients_witness :
  1 <= 100 <= q16_max /\
  exists k q',
    nco_crcq16_pll_set_bandwidth example_set_coefficients example_undef
      example_nco 100 = Ok q' /\
    0 <= k /\ k * k * (100 * 100) <= 2000000 < (k + 1) * (k + 1) * (100 * 100) /\
    b q' = (1999 + k, 4000, 2000 - k) /\
    a q' = (1 + 500 / (100 * 100), Z.quot (500 - 100 * 100) (100 * 100), 0) /\
    pll_filter q' = example_set_coefficients (pll_filter example_nco) (b q') (a q').
Proof.
  assert (H : 1 <= 100 <= q16_max) by (unfold q16_max; lia).
  split; [exact H |].
  exact (pll_set_bandwidth_coefficients unit example_set_coefficients
           example_undef example_nco 100 H).
Defined.

Lemma create_then_sincos_witness :
  nco_crcq16_create 4096 example_fn example_create example_set_coefficients
    example_clear example_undef LIQUID_NCO = Ok example_created /\
  exists q1,
    nco_crcq16_sincos example_fn example_fn example_undef example_created =
    Ok (q1, (example_fn 0, example_fn 64)).
Proof.
  assert (H : nco_crcq16_create 4096 example_fn example_create
                example_set_coefficients example_clear example_undef LIQUID_NCO
              = Ok example_created) by (vm_compute; reflexivity).
  split; [exact H |].
  exact (create_then_sincos 4096 example_fn example_fn example_fn unit
           example_create example_set_coefficients example_clear
           example_undef example_undef LIQUID_NCO example_created H).
Defined.

Lemma reset_then_steps_witness :
  0 <= example_pi /\
  theta (Nat.iter 5 (nco_crcq16_step example_pi example_2pi)
           (nco_crcq16_reset example_clear (set_theta example_nco 77))) = 0.
Proof.
  assert (H : 0 <= example_pi) by (unfold example_pi; lia).
  split; [exact H |].
  exact (proj1 (reset_then_steps example_pi example_2pi unit example_clear
                  (set_theta example_nco 77) 5 H)).
Defined.

Lemma phase_constrained_always_witness :
  (q16_angles_ok example_pi example_2pi /\ 32768 <= example_pi + example_2pi) /\
  - example_pi <=
    theta (nco_crcq16_step example_pi example_2pi
             (set_d_theta (set_theta example_nco 12000) 32767))
  <= example_pi.
Proof.
  assert (H : 32768 <= example_pi + example_2pi)
    by (unfold example_pi, example_2pi; lia).
  split; [split; [exact example_angles_ok | exact H] |].
  exact (proj2 (proj2 (phase_constrained_always example_pi example_2pi unit
                         (set_d_theta (set_theta example_nco 12000) 32767)
                         example_angles_ok H))).
Defined.

Lemma constrain_frequency_bounds_witness :
  (q16_angles_ok example_pi example_2pi /\
   - example_2pi < d_theta (set_d_theta example_nco 20000) < example_2pi) /\
  - example_pi <=
    d_theta (nco_crcq16_constrain_frequency example_pi example_2pi
               (set_d_theta example_nco 20000))
  <= example_pi.
Proof.
  assert (H : - example_2pi < d_theta (set_d_theta example_nco 20000) < example_2pi)
    by (unfold example_2pi; cbn; lia).
  split; [split; [exact example_angles_ok | exact H] |].
  exact (proj1 (constrain_frequency_bounds example_pi example_2pi unit
                  (set_d_theta example_nco 20000) example_angles_ok H)).
Defined.

Lemma pll_steps_accumulate_witness :
  in_q16 (d_theta example_nco) /\
  theta (fold_left (nco_crcq16_pll_step example_execute_df1) [1; 2; 3] example_nco)
  = theta example_nco.
Proof.
  assert (H : in_q16 (d_theta example_nco))
    by (unfold in_q16, q16_min, q16_max; cbn; lia).
  split; [exact H |].
  exact (proj1 (pll_steps_accumulate unit example_execute_df1 [1; 2; 3]
                  example_nco H)).
Defined.

Lemma init_S1_active_count_witness :
  Z.of_nat (length (repeat 2 64)) < 2 ^ 32 /\
  exists _S1 _s1,
    ofdmframe_init_S1 0 example_fn example_fn example_generate_symbol example_fft
      (repeat 2 64) = Ok (_S1, _s1, S1_active_count 0 (repeat 2 64)) /\
    map fc_is_unit _S1 = S1_active 0 (repeat 2 64) /\
    map fc_is_zero _S1 = map negb (S1_active 0 (repeat 2 64)).
Proof.
  assert (H : Z.of_nat (length (repeat 2 64)) < 2 ^ 32) by (cbn; lia).
  split; [exact H |].
  apply (proj2 (init_S1_active_count 0 example_fn Z example_fn
                  example_generate_symbol example_fft (repeat 2 64) H)).
  vm_compute. discriminate.
Defined.

Lemma init_S0_needs_init_S1_witness :
  Z.of_nat (length [0; 2; 0; 1]) < 2 ^ 32 /\
  S0_active_count 0 [0; 2; 0; 1] <= S1_active_count 0 [0; 2; 0; 1].
Proof.
  assert (H : Z.of_nat (length [0; 2; 0; 1]) < 2 ^ 32) by (cbn; lia).
  split; [exact H |].
  exact (proj1 (init_S0_needs_init_S1 0 example_fn Z example_fn
                  example_generate_symbol example_fft [0; 2; 0; 1] H)).
Defined.

Lemma validate_sctype_counts_witness :
  (0 <> 1 /\ 0 <> 2 /\ 1 <> 2 /\ Z.of_nat (length [0; 2; 1; 2]) < 2 ^ 32) /\
  is_exit (ofdmframe_validate_sctype 0 1 2 [0; 2; 1; 2]) =
  negb (forallb (sctype_valid 0 1 2) [0; 2; 1; 2]).
Proof.
  assert (H01 : 0 <> 1) by discriminate.
  assert (H02 : 0 <> 2) by discriminate.
  assert (H12 : 1 <> 2) by discriminate.
  assert (H : Z.of_nat (length [0; 2; 1; 2]) < 2 ^ 32) by (cbn; lia).
  split; [repeat split; assumption |].
  exact (proj2 (proj2 (validate_sctype_counts 0 1 2 [0; 2; 1; 2] H01 H02 H12 H))).
Defined.

Lemma init_default_sctype_layout_witness :
  4 <= 64 < 2 ^ 32 /\
  exists _p,
    ofdmframe_init_default_sctype 0 1 2 64 = (64 <? 6, Sc_done _p) /\
    length _p = Z.to_nat 64.
Proof.
  assert (H : 4 <= 64 < 2 ^ 32) by lia.
  split; [exact H |].
  destruct (init_default_sctype_layout 0 1 2 64 H) as (p & Hrun & Hlen & _).
  exists p. split; [exact Hrun | exact Hlen].
Defined.

Lemma init_default_sctype_overrun_witness :
  0 <= 2 < 4 /\
  ofdmframe_init_default_sctype 0 1 2 2 = (true, Sc_out_of_bounds (Z.max 2 1)).
Proof.
  assert (H : 0 <= 2 < 4) by lia.
  split; [exact H |].
  exact (init_default_sctype_overrun 0 1 2 2 H).
Defined.

Lemma default_sctype_then_sequences_witness :
  (0 <> 1 /\ 0 <> 2 /\ 1 <> 2 /\ 4 <= 64 < 2 ^ 32) /\
  exists _p,
    snd (ofdmframe_init_default_sctype 0 1 2 64) = Sc_done _p /\
    is_exit (ofdmframe_init_S0 0 example_fn example_fn example_generate_symbol
               example_fft _p) = (64 <? 9).
Proof.
  assert (H01 : 0 <> 1) by discriminate.
  assert (H02 : 0 <> 2) by discriminate.
  assert (H12 : 1 <> 2) by discriminate.
  assert (H : 4 <= 64 < 2 ^ 32) by lia.
  split; [repeat split; try assumption; lia |].
  destruct (default_sctype_then_sequences 0 1 2 example_fn Z example_fn
              example_generate_symbol example_fft 64 H01 H02 H12 H)
    as (p & Hrun & _ & _ & H0).
  exists p. split; [exact Hrun | exact H0].
Defined.

Lemma print_sctype_order_witness :
  Z.of_nat (length [0; 2; 1; 2]) + Z.of_nat (length [0; 2; 1; 2]) / 2 < 2 ^ 32 /\
  ofdmframe_print_sctype 0 1 2 [0; 2; 1; 2] =
  ("[|+.+]" ++ String (Ascii.ascii_of_nat 10) "", None).
Proof.
  assert (H : Z.of_nat (length [0; 2; 1; 2]) + Z.of_nat (length [0; 2; 1; 2]) / 2
              < 2 ^ 32) by (cbn; lia).
  split; [exact H |].
  rewrite (print_sctype_order 0 1 2 [0; 2; 1; 2] H). reflexivity.
Defined.

Lemma steps_from_constrained_phase_witness :
  (q16_angles_ok example_pi example_2pi /\ 2 * example_pi <= q16_max /\
   - example_pi <= theta (set_d_theta (set_theta example_nco 5000) (-300)) <= example_pi /\
   - example_pi <= d_theta (set_d_theta (set_theta example_nco 5000) (-300)) <= example_pi) /\
  - example_pi <=
    theta (Nat.iter 200 (nco_crcq16_step example_pi example_2pi)
             (set_d_theta (set_theta example_nco 5000) (-300)))
  <= example_pi.
Proof.
  assert (H1 : 2 * example_pi <= q16_max) by (unfold example_pi, q16_max; lia).
  assert (H2 : - example_pi <= theta (set_d_theta (set_theta example_nco 5000) (-300))
               <= example_pi) by (unfold example_pi; cbn; lia).
  assert (H3 : - example_pi <= d_theta (set_d_theta (set_theta example_nco 5000) (-300))
               <= example_pi) by (unfold example_pi; cbn; lia).
  split; [repeat split; try apply example_angles_ok; try apply H2; try apply H3; exact H1 |].
  exact (proj1 (steps_from_constrained_phase example_pi example_2pi unit
                  (set_d_theta (set_theta example_nco 5000) (-300)) 200
                  example_angles_ok H1 H2 H3)).
Defined.

Lemma init_S0_outputs_witness :
  (Z.of_nat (length [2; 0; 1; 2]) < 2 ^ 32 /\ S0_active_count 0 [2; 0; 1; 2] <> 0) /\
  4 <= S0_msequence_length example_fn (Z.of_nat (length [2; 0; 1; 2])) <= 8.
Proof.
  assert (H : Z.of_nat (length [2; 0; 1; 2]) < 2 ^ 32) by (cbn; lia).
  assert (Hne : S0_active_count 0 [2; 0; 1; 2] <> 0) by (vm_compute; discriminate).
  split; [split; [exact H | exact Hne] |].
  exact (proj1 (init_S0_outputs 0 example_fn Z example_fn example_generate_symbol
                  example_fft [2; 0; 1; 2] H Hne)).
Defined.

Lemma init_S1_outputs_witness :
  (Z.of_nat (length [2; 0; 1; 2]) < 2 ^ 32 /\ S1_active_count 0 [2; 0; 1; 2] <> 0) /\
  5 <= S1_msequence_length example_fn (Z.of_nat (length [2; 0; 1; 2])) <= 9.
Proof.
  assert (H : Z.of_nat (length [2; 0; 1; 2]) < 2 ^ 32) by (cbn; lia).
  assert (Hne : S1_active_count 0 [2; 0; 1; 2] <> 0) by (vm_compute; discriminate).
  split; [split; [exact H | exact Hne] |].
  exact (proj1 (init_S1_outputs 0 example_fn Z example_fn example_generate_symbol
                  example_fft [2; 0; 1; 2] H Hne)).
Defined.
